(** * plotly.py code generator: [codegen/datatypes.py]

    A shallow embedding of the datatype-class emitter.  Python [str] values
    are [string]s whose characters are read as code points below 256;
    [io.StringIO] objects live in a store of buffers; a raised exception is
    a value of [exn] carried by [result]. *)

From Stdlib Require Import Ascii String Lia.
From stdpp Require Import base list sets strings.

Local Open Scope stdpp_scope.

(** ** Characters and text constants *)

Definition nl_char : ascii := "010"%char.
Definition space_char : ascii := " "%char.

(** The one-character strings the templates are assembled from. *)
Definition nl : string := String nl_char "".
Definition dquote : string := String "034"%char "".
(** The docstring delimiter of the generated code. *)
Definition triple_quote : string := dquote +:+ dquote +:+ dquote.
Definition backslash : string := String "092"%char "".

(** ** Python [str] operations used by the generator *)

Module PyStr.

(** [c * n] for a one-character string [c]. *)
Fixpoint repeat_char (c : ascii) (n : nat) : string :=
  match n with
  | O => ""
  | S n' => String c (repeat_char c n')
  end.

Definition spaces (n : nat) : string := repeat_char space_char n.

(** [str.isspace] on one character: TAB, LF, VT, FF, CR, the separators
    FS, GS, RS, US, the space, NEL and the no-break space. *)
Definition isspace (c : ascii) : bool :=
  let n := nat_of_ascii c in
  ((9 <=? n) && (n <=? 13)) || ((28 <=? n) && (n <=? 32))
  || (n =? 133) || (n =? 160).

(** [s.lstrip()] *)
Fixpoint lstrip (s : string) : string :=
  match s with
  | EmptyString => EmptyString
  | String c s' => if isspace c then lstrip s' else s
  end.

(** [s.rstrip()] *)
Fixpoint rstrip (s : string) : string :=
  match s with
  | EmptyString => EmptyString
  | String c s' =>
      match rstrip s' with
      | EmptyString => if isspace c then EmptyString else String c EmptyString
      | r => String c r
      end
  end.

(** [s.strip()] *)
Definition strip (s : string) : string := rstrip (lstrip s).

(** [s.split(sep)] for a one-character separator: always at least one
    piece, and an empty piece between two adjacent separators. *)
Fixpoint split (sep : ascii) (s : string) : list string :=
  match s with
  | EmptyString => [EmptyString]
  | String c s' =>
      if Ascii.eqb c sep then EmptyString :: split sep s'
      else match split sep s' with
           | [] => [String c EmptyString]
           | piece :: pieces => String c piece :: pieces
           end
  end.

(** [sep.join(pieces)] *)
Fixpoint join (sep : string) (pieces : list string) : string :=
  match pieces with
  | [] => ""
  | [piece] => piece
  | piece :: rest => piece +:+ sep +:+ join sep rest
  end.

(** [c in s] for a character [c]. *)
Fixpoint contains (c : ascii) (s : string) : bool :=
  match s with
  | EmptyString => false
  | String c' s' => Ascii.eqb c' c || contains c s'
  end.

(** [x in (t1, ..., tn)] on strings. *)
Definition mem (x : string) (ts : list string) : bool :=
  existsb (String.eqb x) ts.

(** Truth value of a string: non-empty. *)
Definition truthy (s : string) : bool :=
  match s with
  | EmptyString => false
  | String _ _ => true
  end.

End PyStr.

(** ** Exceptions and results *)

Inductive exn : Type :=
| ValueError (msg : string)
| AssertionError
| UnboundLocalError (variable : string).

Inductive result (A : Type) : Type :=
| Ok (a : A)
| Raise (e : exn).
Arguments Ok {A} a.
Arguments Raise {A} e.

(** ** [get_typing_type] *)

(** The plotly [valType] strings [get_typing_type] has a branch for, in the
    order of its tests. *)
Definition list_types : list string := ["data_array"; "info_array"; "colorlist"].
Definition str_types : list string := ["string"; "color"; "colorscale"; "subplotid"].
Definition any_types : list string := ["enumerated"; "flaglist"; "any"].
Definition number_types : list string := ["number"; "angle"].

Definition plotly_types : list string :=
  list_types ++ str_types ++ any_types ++ number_types ++ ["integer"; "boolean"].

Definition get_typing_type (plotly_type : string) (array_ok : bool)
  : result string :=
  let finish (pytype : string) : result string :=
    if array_ok
    then Ok ("Union[" +:+ pytype +:+ ", List[" +:+ pytype +:+ "]]")
    else Ok pytype in
  if PyStr.mem plotly_type list_types then finish "List"
  else if PyStr.mem plotly_type str_types then finish "str"
  else if PyStr.mem plotly_type any_types then finish "Any"
  else if PyStr.mem plotly_type number_types then finish "Number"
  else if String.eqb plotly_type "integer" then finish "int"
  else if String.eqb plotly_type "boolean" then finish "bool"
  else Raise (ValueError ("Unknown plotly type: " +:+ plotly_type)).

(** The Python types a scalar property can be annotated with. *)
Definition base_pytypes : list string :=
  ["List"; "str"; "Any"; "Number"; "int"; "bool"].

(** ** [io.StringIO] buffers and the generator monad

    A store holds the text of every [StringIO] object created so far; an
    object is the index of its text.  A computation threads the store and
    either returns a value or raises. *)

Abbreviation store := (list string) (only parsing).
Abbreviation StringIO_ref := nat (only parsing).

Definition M (A : Type) : Type := store → result A * store.

Definition ret {A} (a : A) : M A := λ h, (Ok a, h).
Definition raise {A} (e : exn) : M A := λ h, (Raise e, h).
Definition bind {A B} (m : M A) (k : A → M B) : M B :=
  λ h, match m h with
       | (Ok a, h') => k a h'
       | (Raise e, h') => (Raise e, h')
       end.

Declare Scope gen_scope.
Delimit Scope gen_scope with gen.
Notation "x <- m ;; k" := (bind m (λ x, k))
  (at level 100, m at next level, right associativity) : gen_scope.
Notation "m ;; k" := (bind m (λ _, k))
  (at level 100, right associativity) : gen_scope.
Local Open Scope gen_scope.

(** Lift a pure computation that may raise. *)
Definition lift {A} (r : result A) : M A := λ h, (r, h).

(** [StringIO()] *)
Definition StringIO : M StringIO_ref := λ h, (Ok (length h), h ++ [""]).
(** [buffer.write(s)] *)
Definition write (buffer : StringIO_ref) (s : string) : M unit :=
  λ h, (Ok tt, alter (λ text, text +:+ s) buffer h).
(** [buffer.getvalue()] *)
Definition getvalue (buffer : StringIO_ref) : M string :=
  λ h, (Ok (default "" (h !! buffer)), h).

(** [for x in xs: body(x)] *)
Fixpoint for_each {A} (xs : list A) (body : A → M unit) : M unit :=
  match xs with
  | [] => ret tt
  | x :: xs' => body x ;; for_each xs' body
  end.

(** ** Schema nodes *)

Module Validator.
(** A validator instance; [description] is the text its [description()]
    method returns. *)
Record t : Type := { description : string }.
End Validator.

Inductive NodeKind : Type := compound | leaf_value | literal.

Definition NodeKind_eqb (k1 k2 : NodeKind) : bool :=
  match k1, k2 with
  | compound, compound | leaf_value, leaf_value | literal, literal => true
  | _, _ => false
  end.

(** The attributes of a [PlotlyNode] that [datatypes.py] reads.  The class
    itself is declared in [codegen/utils.py]; the name attributes, the two
    path strings and the two methods are carried as data, and [node_data]
    is the text a literal node's value formats to. *)
#[warnings="-register-all"]
Inductive PlotlyNode : Type := Build_PlotlyNode {
  plotly_name : string;
  name_property : string;
  name_undercase : string;
  name_datatype_class : string;
  name_base_datatype : string;
  name_validator_class : string;
  parent_path_str : string;
  parent_dotpath_str : string;
  kind : NodeKind;
  is_array_element : bool;
  datatype : string;
  description : string;
  node_data : string;
  get_validator_instance : option Validator.t;
  get_constructor_params_docstring : nat → string;
  children : list PlotlyNode
}.

(** Modelled from the spec: [PlotlyNode.is_compound] (codegen/utils.py) --
    "a compound node represents a class", the node's kind is compound. *)
Definition is_compound (node : PlotlyNode) : bool :=
  NodeKind_eqb (kind node) compound.

(** Modelled from the spec: the test for the third kind of node -- "a
    literal node represents a fixed, non-configurable value baked into
    instances" -- that separates the literal children from the others
    (the class is in codegen/utils.py). *)
Definition is_literal (node : PlotlyNode) : bool :=
  NodeKind_eqb (kind node) literal.

(** Modelled from the spec: [PlotlyNode.child_datatypes] (codegen/utils.py)
    -- the non-literal children, the ones that become properties and
    constructor parameters, in tree order. *)
Definition child_datatypes (node : PlotlyNode) : list PlotlyNode :=
  filter (λ n, is_literal n = false) (children node).

(** Modelled from the spec: [PlotlyNode.child_literals] (codegen/utils.py)
    -- the literal children, in tree order. *)
Definition child_literals (node : PlotlyNode) : list PlotlyNode :=
  filter (λ n, is_literal n = true) (children node).

(** Modelled from the spec: [PlotlyNode.child_compound_datatypes]
    (codegen/utils.py) -- the children that are themselves compound. *)
Definition child_compound_datatypes (node : PlotlyNode) : list PlotlyNode :=
  filter (λ n, is_compound n = true) (child_datatypes node).

(** ** [reindent_validator_description] *)

Definition reindent_validator_description
    (validator : Validator.t) (extra_indent : nat) : string :=
  PyStr.join (nl +:+ PyStr.spaces extra_indent)
    (PyStr.split nl_char (PyStr.strip (Validator.description validator))).

(** ** Source templates: the f-strings of [datatypes.py] *)

Definition dashes (s : string) : string :=
  PyStr.repeat_char "-" (String.length s).

Definition import_validators_text (dotpath undercase : string) : string :=
  "from plotly.validators" +:+ dotpath +:+ " import " +:+
  undercase +:+ " as v_" +:+ undercase +:+ nl.

Definition import_graph_objs_text (dotpath undercase : string) : string :=
  "from plotly.graph_objs" +:+ dotpath +:+ " import " +:+
  undercase +:+ " as d_" +:+ undercase +:+ nl.

Definition class_header_text (datatype_class base : string) : string :=
  nl +:+ nl +:+ "class " +:+ datatype_class +:+ "(" +:+ base +:+ "):" +:+ nl.

Definition getter_text (name prop_type docstring : string) : string :=
  nl +:+
  "    # " +:+ name +:+ nl +:+
  "    # " +:+ dashes name +:+ nl +:+
  "    @property" +:+ nl +:+
  "    def " +:+ name +:+ "(self) -> " +:+ prop_type +:+ ":" +:+ nl +:+
  "        " +:+ triple_quote +:+ nl +:+
  docstring +:+ nl +:+
  "        " +:+ triple_quote +:+ nl +:+
  "        return self['" +:+ name +:+ "']".

Definition setter_text (name : string) : string :=
  nl +:+ nl +:+
  "    @" +:+ name +:+ ".setter" +:+ nl +:+
  "    def " +:+ name +:+ "(self, val):" +:+ nl +:+
  "        self['" +:+ name +:+ "'] = val" +:+ nl.

Definition literal_getter_text (name prop_type : string) : string :=
  nl +:+
  "    # " +:+ name +:+ nl +:+
  "    # " +:+ dashes name +:+ nl +:+
  "    @property" +:+ nl +:+
  "    def " +:+ name +:+ "(self) -> " +:+ prop_type +:+ ":" +:+ nl +:+
  "        return self._props['" +:+ name +:+ "']" +:+ nl.

Definition private_properties_text (parent_path : string) : string :=
  nl +:+ nl +:+
  "    # property parent name" +:+ nl +:+
  "    # --------------------" +:+ nl +:+
  "    @property" +:+ nl +:+
  "    def _parent_path_str(self) -> str:" +:+ nl +:+
  "        return '" +:+ parent_path +:+ "'" +:+ nl +:+
  nl +:+
  "    # Self properties description" +:+ nl +:+
  "    # ---------------------------" +:+ nl +:+
  "    @property" +:+ nl +:+
  "    def _prop_descriptions(self) -> str:" +:+ nl +:+
  "        return " +:+ triple_quote +:+ backslash.

Definition close_descriptions_text : string :=
  nl +:+ "        " +:+ triple_quote.

Definition init_open_text : string := nl +:+ "    def __init__(self".

Definition param_text (name : string) : string :=
  "," +:+ nl +:+ "            " +:+ name +:+ "=None".

Definition kwargs_text : string := "," +:+ nl +:+ "            **kwargs".

Definition params_close_text : string := nl +:+ "        ):".

Definition docstring_open_text (header node_description : string) : string :=
  nl +:+
  "        " +:+ triple_quote +:+ nl +:+
  "        " +:+ header +:+ nl +:+
  "        " +:+ nl +:+
  node_description +:+ "        Parameters" +:+ nl +:+
  "        ----------".

Definition docstring_close_text (datatype_class : string) : string :=
  nl +:+ nl +:+
  "        Returns" +:+ nl +:+
  "        -------" +:+ nl +:+
  "        " +:+ datatype_class +:+ nl +:+
  "        " +:+ triple_quote.

Definition super_init_text (name : string) : string :=
  nl +:+
  "        super().__init__('" +:+ name +:+ "', **kwargs)" +:+ nl +:+
  nl +:+
  "        # Initialize validators" +:+ nl +:+
  "        # ---------------------".

Definition validator_text (sub_name undercase sub_validator : string) : string :=
  nl +:+ "        self._validators['" +:+ sub_name +:+ "'] = v_" +:+
  undercase +:+ "." +:+ sub_validator +:+ "()".

Definition populate_header_text : string :=
  nl +:+ nl +:+
  "        # Populate data dict with properties" +:+ nl +:+
  "        # ----------------------------------".

Definition populate_text (name : string) : string :=
  nl +:+ "        self." +:+ name +:+ " = " +:+ name.

Definition literals_header_text : string :=
  nl +:+ nl +:+
  "        # Read-only literals" +:+ nl +:+
  "        # ------------------".

Definition literal_seed_text (lit_name lit_val : string) : string :=
  nl +:+ "        self._props['" +:+ lit_name +:+ "'] = '" +:+ lit_val +:+ "'".

(** ** The generator *)

Section Generator.

(** [textwrap.wrap(text, width, initial_indent, subsequent_indent)] of the
    Python standard library: the emitter is modelled for any wrapping
    function. *)
Variable textwrap_wrap : string → nat → string → string → list string.

(** The wrapped lines of a description, as both call sites ask for them:
    width [79 - 8], both indents eight spaces. *)
Definition wrap_description (text : string) : list string :=
  textwrap_wrap text (79 - 8) (PyStr.spaces 8) (PyStr.spaces 8).

(** Lines 107-113: the type annotation of a property. *)
Definition prop_type_of (undercase : string) (subtype_node : PlotlyNode)
  : result string :=
  let sub_datatype_class := name_datatype_class subtype_node in
  if is_array_element subtype_node then
    Ok ("Tuple[d_" +:+ undercase +:+ "." +:+ sub_datatype_class +:+ "]")
  else if is_compound subtype_node then
    Ok ("d_" +:+ undercase +:+ "." +:+ sub_datatype_class)
  else get_typing_type (datatype subtype_node) false.

(** Lines 116-121. *)
Definition property_description (subtype_node : PlotlyNode) : string :=
  PyStr.join nl (wrap_description (description subtype_node)).

(** Lines 124-137. *)
Definition property_docstring (subtype_node : PlotlyNode) : string :=
  let property_description := property_description subtype_node in
  match get_validator_instance subtype_node with
  | Some validator =>
      let validator_description :=
        reindent_validator_description validator 4 in
      if PyStr.truthy (PyStr.strip property_description) then
        property_description +:+ nl +:+
        "    " +:+ nl +:+
        "        " +:+ validator_description
      else "        " +:+ validator_description
  | None => property_description
  end.

(** One iteration of the property loop (lines 107-156); returns the value
    it leaves in the local variable [prop_type]. *)
Definition write_property (buffer : StringIO_ref) (undercase : string)
    (subtype_node : PlotlyNode) : M string :=
  prop_type <- lift (prop_type_of undercase subtype_node) ;;
  write buffer (getter_text (name_property subtype_node) prop_type
                  (property_docstring subtype_node)) ;;
  write buffer (setter_text (name_property subtype_node)) ;;
  ret prop_type.

(** The property loop (lines 106-156).  [prop_type] is the local variable
    of that name: [None] while it is unbound. *)
Fixpoint write_properties (buffer : StringIO_ref) (undercase : string)
    (subtype_nodes : list PlotlyNode) (prop_type : option string)
  : M (option string) :=
  match subtype_nodes with
  | [] => ret prop_type
  | subtype_node :: rest =>
      prop_type' <- write_property buffer undercase subtype_node ;;
      write_properties buffer undercase rest (Some prop_type')
  end.

(** Lines 69-70 and 216-217. *)
Definition literal_nodes (node : PlotlyNode) : list PlotlyNode :=
  filter (λ n, PyStr.mem (plotly_name n) ["type"] = true)
    (child_literals node).

(** One iteration of the literal loop (lines 160-166): the f-string reads
    [prop_type], whatever the property loop left there. *)
Definition write_literal (buffer : StringIO_ref) (prop_type : option string)
    (literal_node : PlotlyNode) : M unit :=
  match prop_type with
  | None => raise (UnboundLocalError "prop_type")
  | Some prop_type =>
      write buffer (literal_getter_text (name_property literal_node) prop_type)
  end.

(** Lines 259-280. *)
Definition add_constructor_params (buffer : StringIO_ref)
    (subtype_nodes : list PlotlyNode) : M unit :=
  for_each subtype_nodes
    (λ subtype_node, write buffer (param_text (name_property subtype_node))) ;;
  write buffer kwargs_text ;;
  write buffer params_close_text.

(** Lines 306-314: the description block of the class docstring. *)
Definition docstring_description (node : PlotlyNode) : string :=
  let node_description := description node in
  if PyStr.truthy node_description then
    PyStr.join nl (wrap_description node_description) +:+ nl +:+ nl
  else node_description.

(** Lines 283-337. *)
Definition add_docstring (buffer : StringIO_ref) (node : PlotlyNode)
    (header : string) : M unit :=
  if negb (is_compound node) then raise AssertionError
  else
    (write buffer (docstring_open_text header (docstring_description node)) ;;
     write buffer (get_constructor_params_docstring node 8) ;;
     write buffer (docstring_close_text (name_datatype_class node))).

(** Lines 215-227. *)
Definition write_literal_seeds (buffer : StringIO_ref) (node : PlotlyNode)
  : M unit :=
  let literal_nodes := literal_nodes node in
  match literal_nodes with
  | [] => ret tt
  | _ :: _ =>
      write buffer literals_header_text ;;
      for_each literal_nodes
        (λ literal_node,
           let lit_name := name_property literal_node in
           let lit_val := node_data literal_node in
           write buffer (literal_seed_text lit_name lit_val))
  end.

(** Lines 45-231. *)
Definition build_datatype_py (node : PlotlyNode) : M string :=
  if negb (is_compound node) then raise AssertionError
  else
    (let undercase := name_undercase node in
     let datatype_class := name_datatype_class node in
     let literal_nodes := literal_nodes node in
     buffer <- StringIO ;;
     write buffer ("from typing import *" +:+ nl) ;;
     write buffer ("from numbers import Number" +:+ nl) ;;
     write buffer ("from plotly.basedatatypes import " +:+
                   name_base_datatype node +:+ nl) ;;
     write buffer (import_validators_text (parent_dotpath_str node) undercase) ;;
     match child_compound_datatypes node with
     | [] => ret tt
     | _ :: _ =>
         write buffer (import_graph_objs_text (parent_dotpath_str node) undercase)
     end ;;
     write buffer (class_header_text datatype_class (name_base_datatype node)) ;;
     let child_datatype_nodes := child_datatypes node in
     let subtype_nodes := child_datatype_nodes in
     prop_type <- write_properties buffer undercase subtype_nodes None ;;
     for_each literal_nodes (write_literal buffer prop_type) ;;
     write buffer (private_properties_text (parent_path_str node)) ;;
     write buffer (get_constructor_params_docstring node 8) ;;
     write buffer close_descriptions_text ;;
     write buffer init_open_text ;;
     add_constructor_params buffer subtype_nodes ;;
     let header := "Construct a new " +:+ datatype_class +:+ " object" in
     add_docstring buffer node header ;;
     write buffer (super_init_text (name_property node)) ;;
     for_each subtype_nodes
       (λ subtype_node,
          let sub_name := name_property subtype_node in
          let sub_validator := name_validator_class subtype_node in
          write buffer (validator_text sub_name undercase sub_validator)) ;;
     write buffer populate_header_text ;;
     for_each subtype_nodes
       (λ subtype_node,
          write buffer (populate_text (name_property subtype_node))) ;;
     write_literal_seeds buffer node ;;
     getvalue buffer).

End Generator.

(** ** What the emitter writes, as text

    The pieces below name the text each part of [build_datatype_py] appends
    to its buffer; the theorems relate the stateful code to them. *)

Definition str_concat (pieces : list string) : string :=
  foldr String.append "" pieces.

(** The outcome of a computation that only appends to [buffer]: it appends
    [out] and ends with [res] of the buffer's final text, whatever else the
    store holds. *)
Definition runs {A} (buffer : StringIO_ref) (m : M A)
    (out : string) (res : string → result A) : Prop :=
  ∀ (h : store) (text : string),
    h !! buffer = Some text →
    m h = (res (text +:+ out), <[buffer := text +:+ out]> h).

(** The same, for an outcome that does not read the buffer. *)
Definition pure_runs {A} (buffer : StringIO_ref) (m : M A)
    (out : string) (res : result A) : Prop :=
  runs buffer m out (λ _, res).

(** The annotations of a list of properties, as far as they can all be
    computed: the first failure wins. *)
Fixpoint prop_types (undercase : string) (subtype_nodes : list PlotlyNode)
  : result (list string) :=
  match subtype_nodes with
  | [] => Ok []
  | subtype_node :: rest =>
      match prop_type_of undercase subtype_node with
      | Raise e => Raise e
      | Ok t =>
          match prop_types undercase rest with
          | Raise e => Raise e
          | Ok ts => Ok (t :: ts)
          end
      end
  end.

(** The constructor parameters in the vocabulary of the specification. *)
Inductive Param : Type :=
| Required (name : string)
| OptionalKeyword (name default : string)
| VarKeyword (name : string).

Definition is_required (p : Param) : bool :=
  match p with Required _ => true | _ => false end.

Definition render_param (p : Param) : string :=
  match p with
  | Required name => "," +:+ nl +:+ "            " +:+ name
  | OptionalKeyword name default =>
      "," +:+ nl +:+ "            " +:+ name +:+ "=" +:+ default
  | VarKeyword name => "," +:+ nl +:+ "            **" +:+ name
  end.

(** The parameter list the specification asks for: one optional keyword
    parameter per non-literal child, defaulting to the unset sentinel, in
    tree order, then the variadic catch-all. *)
Definition spec_constructor_params (node : PlotlyNode) : list Param :=
  map (λ child, OptionalKeyword (name_property child) "None")
      (filter (λ n, is_literal n = false) (children node))
  ++ [VarKeyword "kwargs"].

(** The reindentation the specification describes: the first line as it is,
    every later line with its four-space baseline indent removed and
    [new_indent] spaces put in front. *)
Fixpoint strip_baseline (n : nat) (line : string) : string :=
  match n, line with
  | S n', String c line' =>
      if Ascii.eqb c space_char then strip_baseline n' line' else line
  | _, _ => line
  end.

Definition spec_reindent (text : string) (new_indent : nat) : string :=
  match PyStr.split nl_char (PyStr.strip text) with
  | [] => ""
  | first :: rest =>
      PyStr.join nl
        (first :: map (λ line, PyStr.spaces new_indent +:+ strip_baseline 4 line)
                    rest)
  end.

(** The property docstring the specification describes: both texts around
    a blank line when both are non-empty, the one that is non-empty alone,
    nothing when neither is. *)
Definition spec_property_docstring
    (property_description validator_description : string) : string :=
  match PyStr.truthy (PyStr.strip property_description),
        PyStr.truthy validator_description with
  | true, true =>
      property_description +:+ nl +:+
      "    " +:+ nl +:+
      "        " +:+ validator_description
  | true, false => property_description
  | false, true => "        " +:+ validator_description
  | false, false => ""
  end.

Section EmittedText.

Variable textwrap_wrap : string → nat → string → string → list string.

Definition imports_text (node : PlotlyNode) : string :=
  ("from typing import *" +:+ nl) +:+
  ("from numbers import Number" +:+ nl) +:+
  ("from plotly.basedatatypes import " +:+ name_base_datatype node +:+ nl) +:+
  import_validators_text (parent_dotpath_str node) (name_undercase node) +:+
  match child_compound_datatypes node with
  | [] => ""
  | _ :: _ =>
      import_graph_objs_text (parent_dotpath_str node) (name_undercase node)
  end.

(** The accessor and mutator of one property. *)
Definition accessor_pair_text (subtype_node : PlotlyNode) (prop_type : string)
  : string :=
  getter_text (name_property subtype_node) prop_type
    (property_docstring textwrap_wrap subtype_node) +:+
  setter_text (name_property subtype_node).

Definition properties_text (subtype_nodes : list PlotlyNode)
    (types : list string) : string :=
  str_concat (zip_with accessor_pair_text subtype_nodes types).

Definition literal_getters_text (node : PlotlyNode) (prop_type : string)
  : string :=
  str_concat (map (λ n, literal_getter_text (name_property n) prop_type)
                (literal_nodes node)).

Definition params_text (subtype_nodes : list PlotlyNode) : string :=
  str_concat (map (λ n, param_text (name_property n)) subtype_nodes) +:+
  kwargs_text +:+ params_close_text.

Definition docstring_text (node : PlotlyNode) (header : string) : string :=
  docstring_open_text header (docstring_description textwrap_wrap node) +:+
  get_constructor_params_docstring node 8 +:+
  docstring_close_text (name_datatype_class node).

Definition literal_seeds_text (node : PlotlyNode) : string :=
  match literal_nodes node with
  | [] => ""
  | _ :: _ =>
      literals_header_text +:+
      str_concat (map (λ n, literal_seed_text (name_property n) (node_data n))
                    (literal_nodes node))
  end.

(** Everything before the property section. *)
Definition source_head (node : PlotlyNode) : string :=
  imports_text node +:+
  class_header_text (name_datatype_class node) (name_base_datatype node).

(** From the end of the property section to the opening of the
    constructor's parameter list; [prop_type] is what the property loop
    left in its variable. *)
Definition source_middle (node : PlotlyNode) (prop_type : option string)
  : string :=
  match prop_type with
  | Some t => literal_getters_text node t
  | None => ""
  end +:+
  private_properties_text (parent_path_str node) +:+
  get_constructor_params_docstring node 8 +:+
  close_descriptions_text +:+
  init_open_text.

(** The constructor's docstring and body. *)
Definition source_tail (node : PlotlyNode) : string :=
  docstring_text node
    ("Construct a new " +:+ name_datatype_class node +:+ " object") +:+
  super_init_text (name_property node) +:+
  str_concat (map (λ n, validator_text (name_property n) (name_undercase node)
                          (name_validator_class n))
                (child_datatypes node)) +:+
  populate_header_text +:+
  str_concat (map (λ n, populate_text (name_property n))
                (child_datatypes node)) +:+
  literal_seeds_text node.

(** The class source for a node whose properties have the annotations
    [types]. *)
Definition class_source (node : PlotlyNode) (types : list string) : string :=
  source_head node +:+
  properties_text (child_datatypes node) types +:+
  source_middle node (last types) +:+
  params_text (child_datatypes node) +:+
  source_tail node.

(** The outcome of [build_datatype_py] as a function of the node alone. *)
Definition datatype_result (node : PlotlyNode) : result string :=
  if negb (is_compound node) then Raise AssertionError
  else
    match prop_types (name_undercase node) (child_datatypes node) with
    | Raise e => Raise e
    | Ok types =>
        match last types, literal_nodes node with
        | None, _ :: _ => Raise (UnboundLocalError "prop_type")
        | _, _ => Ok (class_source node types)
        end
    end.

End EmittedText.

(** ** [write_datatype_py] *)

(** The node with another list of children, every other attribute kept. *)
Definition with_children (node : PlotlyNode) (kids : list PlotlyNode)
  : PlotlyNode :=
  Build_PlotlyNode (plotly_name node) (name_property node)
    (name_undercase node) (name_datatype_class node)
    (name_base_datatype node) (name_validator_class node)
    (parent_path_str node) (parent_dotpath_str node) (kind node)
    (is_array_element node) (datatype node) (description node)
    (node_data node) (get_validator_instance node)
    (get_constructor_params_docstring node) kids.

Section Writer.

Variable textwrap_wrap : string → nat → string → string → list string.

(** The state of the file system, whatever it is. *)
Variable FS : Type.

(** [codegen.utils.format_and_write_source_py(source, filepath)]: declared
    outside [datatypes.py]; any action on the file system that may raise. *)
Variable format_and_write_source_py : string → string → FS → result unit * FS.

(** [os.path.join(part, ...)], on the list of its arguments. *)
Variable opath_join : list string → string.

(** [PlotlyNode.parent_path_parts], declared in [codegen/utils.py]. *)
Variable parent_path_parts : PlotlyNode → list string.


End Writer.

(** ** Sample inputs *)

(** A wrapping function for the examples: what [textwrap.wrap] returns for
    a text that is blank or is one short word. *)
Definition one_line_wrap (text : string) (width : nat)
    (initial_indent subsequent_indent : string) : list string :=
  if PyStr.truthy (PyStr.strip text)
  then [initial_indent +:+ PyStr.strip text]
  else [].

Module Samples.

Definition no_docs (indent : nat) : string := "".

Definition leaf (name valtype text : string) (v : option Validator.t)
  : PlotlyNode :=
  Build_PlotlyNode name name name "Leaf" "BaseLeaf" "LeafValidator"
    "marker" ".marker" leaf_value false valtype text "" v no_docs [].

Definition literal_child (name value : string) : PlotlyNode :=
  Build_PlotlyNode name name name "" "" "" "scatter" ".scatter"
    literal false "" "" value None no_docs [].

Definition compound_node (name class : string) (kids : list PlotlyNode)
  : PlotlyNode :=
  Build_PlotlyNode name name name class "BaseTraceType" "Validator"
    "" "" compound false "" "" "" None no_docs kids.

Definition color : PlotlyNode := leaf "color" "color" "" None.
Definition size : PlotlyNode :=
  leaf "size" "number" "big"
    (Some {| Validator.description := "    a number" |}).

Definition marker : PlotlyNode := compound_node "marker" "Marker" [color; size].

Definition type_scatter : PlotlyNode := literal_child "type" "scatter".

(** A compound node whose only child is the literal [type]. *)
Definition only_type : PlotlyNode :=
  compound_node "scatter" "Scatter" [type_scatter].

(** The literal [type] after one property. *)
Definition scatter : PlotlyNode :=
  compound_node "scatter" "Scatter" [color; type_scatter].

Definition empty_node : PlotlyNode := compound_node "empty" "Empty" [].

(** A described property whose validator has nothing to say. *)
Definition quiet : PlotlyNode :=
  leaf "quiet" "boolean" "big" (Some {| Validator.description := "" |}).

End Samples.

(** Further sample inputs. *)
Module Examples.

(** A property whose [valType] the type mapper does not know. *)
Definition odd : PlotlyNode := Samples.leaf "odd" "matrix" "" None.

Definition broken : PlotlyNode :=
  Samples.compound_node "broken" "Broken" [Samples.color; odd; Samples.size].

(** A literal child that is not the [type] discriminator. *)
Definition role : PlotlyNode := Samples.literal_child "role" "object".

Definition scatter_with_role : PlotlyNode :=
  Samples.compound_node "scatter" "Scatter"
    [Samples.color; role; Samples.type_scatter].

(** A compound child. *)
Definition line : PlotlyNode := Samples.compound_node "line" "Line" [].

Definition marker_with_line : PlotlyNode :=
  Samples.compound_node "marker" "Marker" [Samples.color; line].




End Examples.

(** The imports every class source starts with (lines 78-86). *)
Definition common_imports_text (node : PlotlyNode) : string :=
  ("from typing import *" +:+ nl) +:+
  ("from numbers import Number" +:+ nl) +:+
  ("from plotly.basedatatypes import " +:+ name_base_datatype node +:+ nl) +:+
  import_validators_text (parent_dotpath_str node) (name_undercase node).

(** * Properties *)

(** ** Strings *)

Lemma str_app_cons (x : ascii) (a b : string) :
  String x a +:+ b = String x (a +:+ b).
Proof. reflexivity. Qed.

Lemma str_app_assoc (a b c : string) : (a +:+ b) +:+ c = a +:+ (b +:+ c).
Proof.
  induction a as [|x a IH]; [reflexivity |].
  now rewrite !str_app_cons, IH.
Qed.

Lemma str_app_nil_r (a : string) : a +:+ "" = a.
Proof.
  induction a as [|x a IH]; [reflexivity |].
  now rewrite str_app_cons, IH.
Qed.

Lemma str_concat_app (xs ys : list string) :
  str_concat (xs ++ ys) = str_concat xs +:+ str_concat ys.
Proof.
  induction xs as [|x xs IH]; simpl; [reflexivity |].
  now rewrite IH, str_app_assoc.
Qed.

(** ** The store *)

Lemma alter_append (h : store) (b : StringIO_ref) (text s : string) :
  h !! b = Some text →
  alter (λ t, t +:+ s) b h = <[b := text +:+ s]> h.
Proof.
  revert b; induction h as [|x h IH]; intros [|b] Hb; simpl in *; try discriminate.
  - now inversion Hb.
  - f_equal. now apply IH.
Qed.

Lemma lookup_insert_same (h : store) (b : StringIO_ref) (text s : string) :
  h !! b = Some text → <[b := s]> h !! b = Some s.
Proof.
  intros Hb. apply list_lookup_insert_eq. now apply lookup_lt_Some in Hb.
Qed.

(** ** Running computations on a buffer *)

Section Runs.

Context {A B : Type}.
Variable b : StringIO_ref.

Lemma runs_out_eq (m : M A) out out' res :
  runs b m out res → out = out' → runs b m out' res.
Proof. now intros Hm <-. Qed.

Lemma pure_runs_ret (x : A) : pure_runs b (ret x) "" (Ok x).
Proof.
  intros h text Hb. unfold ret. rewrite str_app_nil_r.
  now rewrite list_insert_id.
Qed.

Lemma pure_runs_raise (e : exn) : pure_runs b (@raise A e) "" (Raise e).
Proof.
  intros h text Hb. unfold raise. rewrite str_app_nil_r.
  now rewrite list_insert_id.
Qed.

Lemma pure_runs_lift (r : result A) : pure_runs b (lift r) "" r.
Proof.
  intros h text Hb. unfold lift. rewrite str_app_nil_r.
  now rewrite list_insert_id.
Qed.

Lemma runs_bind (m : M A) (k : A → M B) x o1 o2 res :
  pure_runs b m o1 (Ok x) →
  runs b (k x) o2 res →
  runs b (bind m k) (o1 +:+ o2) res.
Proof.
  intros Hm Hk h text Hb. unfold bind. rewrite (Hm h text Hb).
  rewrite (Hk _ (text +:+ o1)) by (eapply lookup_insert_same; eassumption).
  now rewrite list_insert_insert_eq, str_app_assoc.
Qed.

Lemma runs_bind_raise (m : M A) (k : A → M B) e o1 :
  pure_runs b m o1 (Raise e) →
  pure_runs b (bind m k) o1 (Raise e).
Proof. intros Hm h text Hb. unfold bind. now rewrite (Hm h text Hb). Qed.

End Runs.

Lemma pure_runs_write (b : StringIO_ref) (s : string) :
  pure_runs b (write b s) s (Ok tt).
Proof. intros h text Hb. unfold write. now rewrite (alter_append h b text s). Qed.

Lemma runs_getvalue (b : StringIO_ref) : runs b (getvalue b) "" Ok.
Proof.
  intros h text Hb. unfold getvalue. rewrite Hb, str_app_nil_r. simpl.
  now rewrite list_insert_id.
Qed.

Lemma runs_then_getvalue {A} (b : StringIO_ref) (m : M A) x out :
  pure_runs b m out (Ok x) →
  runs b (bind m (λ _, getvalue b)) out Ok.
Proof.
  intros Hm. eapply runs_out_eq.
  - eapply runs_bind; [exact Hm | apply runs_getvalue].
  - apply str_app_nil_r.
Qed.

Lemma pure_runs_for_each {A} (b : StringIO_ref) (f : A → string) (xs : list A) :
  pure_runs b (for_each xs (λ x, write b (f x))) (str_concat (map f xs)) (Ok tt).
Proof.
  induction xs as [|x xs IH]; simpl.
  - apply pure_runs_ret.
  - eapply runs_bind; [apply pure_runs_write | exact IH].
Qed.

(** ** The loops of the emitter *)

Lemma prop_type_of_error (undercase : string) (n : PlotlyNode) (e : exn) :
  prop_type_of undercase n = Raise e →
  e = ValueError ("Unknown plotly type: " +:+ datatype n).
Proof.
  unfold prop_type_of, get_typing_type.
  repeat match goal with
         | |- context [if ?c then _ else _] => destruct c
         end; intros H; now inversion H.
Qed.

Lemma prop_types_error (undercase : string) (nodes : list PlotlyNode) (e : exn) :
  prop_types undercase nodes = Raise e → ∃ msg, e = ValueError msg.
Proof.
  induction nodes as [|n nodes IH]; simpl; [discriminate |].
  destruct (prop_type_of undercase n) as [t|e'] eqn:Ht.
  - destruct (prop_types undercase nodes); [discriminate |].
    intros H; inversion H; subst. now apply IH.
  - intros H; inversion H; subst. eexists. eapply prop_type_of_error, Ht.
Qed.

Lemma prop_types_length (undercase : string) (nodes : list PlotlyNode) types :
  prop_types undercase nodes = Ok types → length types = length nodes.
Proof.
  revert types; induction nodes as [|n nodes IH]; simpl; intros types H.
  - now inversion H.
  - destruct (prop_type_of undercase n); [|discriminate].
    destruct (prop_types undercase nodes); [|discriminate].
    inversion H; subst. simpl. f_equal. now apply IH.
Qed.

Section Loops.

Variable textwrap_wrap : string → nat → string → string → list string.
Variable b : StringIO_ref.

Lemma write_property_runs undercase n t :
  prop_type_of undercase n = Ok t →
  pure_runs b (write_property textwrap_wrap b undercase n)
    (accessor_pair_text textwrap_wrap n t) (Ok t).
Proof.
  intros Ht. unfold write_property. rewrite Ht.
  eapply runs_out_eq.
  - eapply runs_bind; [apply pure_runs_lift |].
    eapply runs_bind; [apply pure_runs_write |].
    eapply runs_bind; [apply pure_runs_write | apply pure_runs_ret].
  - unfold accessor_pair_text. now rewrite str_app_nil_r.
Qed.

Lemma write_property_raises undercase n e :
  prop_type_of undercase n = Raise e →
  pure_runs b (write_property textwrap_wrap b undercase n) "" (Raise e).
Proof.
  intros Ht. unfold write_property. rewrite Ht.
  apply runs_bind_raise, pure_runs_lift.
Qed.

Lemma write_properties_runs undercase nodes : ∀ prop_type types,
  prop_types undercase nodes = Ok types →
  pure_runs b (write_properties textwrap_wrap b undercase nodes prop_type)
    (properties_text textwrap_wrap nodes types)
    (Ok (match last types with Some t => Some t | None => prop_type end)).
Proof.
  induction nodes as [|n nodes IH]; simpl; intros prop_type types H.
  - inversion H; subst. apply pure_runs_ret.
  - destruct (prop_type_of undercase n) as [t|] eqn:Ht; [|discriminate].
    destruct (prop_types undercase nodes) as [ts|] eqn:Hts; [|discriminate].
    inversion H; subst. eapply runs_out_eq.
    + eapply runs_bind; [apply write_property_runs, Ht |].
      specialize (IH (Some t) ts eq_refl).
      replace (match last (t :: ts) with
               | Some t0 => Some t0 | None => prop_type end)
        with (match last ts with Some t0 => Some t0 | None => Some t end).
      * exact IH.
      * destruct ts as [|t' ts]; [reflexivity |]. rewrite last_cons_cons.
        destruct (last (t' :: ts)) eqn:E; [reflexivity |].
        apply last_None in E. discriminate.
    + reflexivity.
Qed.

Lemma write_properties_raises undercase nodes : ∀ prop_type e,
  prop_types undercase nodes = Raise e →
  ∃ out, pure_runs b
           (write_properties textwrap_wrap b undercase nodes prop_type)
           out (Raise e).
Proof.
  induction nodes as [|n nodes IH]; simpl; intros prop_type e H;
    [discriminate |].
  destruct (prop_type_of undercase n) as [t|e'] eqn:Ht.
  - destruct (prop_types undercase nodes) as [ts|e''] eqn:Hts;
      [discriminate |].
    inversion H; subst.
    destruct (IH (Some t) e eq_refl) as [out Hout].
    eexists. eapply runs_bind; [apply write_property_runs, Ht | exact Hout].
  - inversion H; subst. eexists.
    apply runs_bind_raise, write_property_raises, Ht.
Qed.

Lemma write_literals_runs node t :
  pure_runs b (for_each (literal_nodes node) (write_literal b (Some t)))
    (literal_getters_text node t) (Ok tt).
Proof. apply (pure_runs_for_each b (λ n, literal_getter_text (name_property n) t)). Qed.

Lemma write_literals_unbound (lits : list PlotlyNode) :
  lits ≠ [] →
  pure_runs b (for_each lits (write_literal b None)) ""
    (Raise (UnboundLocalError "prop_type")).
Proof.
  destruct lits as [|l lits]; [congruence | intros _; simpl].
  apply runs_bind_raise, pure_runs_raise.
Qed.

Lemma add_constructor_params_runs (subtype_nodes : list PlotlyNode) :
  pure_runs b (add_constructor_params b subtype_nodes)
    (params_text subtype_nodes) (Ok tt).
Proof.
  unfold add_constructor_params, params_text.
  eapply runs_bind;
    [apply (pure_runs_for_each b (λ n, param_text (name_property n))) |].
  eapply runs_bind; [apply pure_runs_write | apply pure_runs_write].
Qed.

Lemma add_docstring_runs (node : PlotlyNode) (header : string) :
  is_compound node = true →
  pure_runs b (add_docstring textwrap_wrap b node header)
    (docstring_text textwrap_wrap node header) (Ok tt).
Proof.
  intros Hc. unfold add_docstring, docstring_text. rewrite Hc. simpl.
  eapply runs_bind; [apply pure_runs_write |].
  eapply runs_bind; [apply pure_runs_write | apply pure_runs_write].
Qed.

Lemma write_literal_seeds_runs (node : PlotlyNode) :
  pure_runs b (write_literal_seeds b node) (literal_seeds_text node) (Ok tt).
Proof.
  unfold write_literal_seeds, literal_seeds_text.
  destruct (literal_nodes node) as [|l lits]; [apply pure_runs_ret |].
  eapply runs_bind; [apply pure_runs_write |].
  apply (pure_runs_for_each b
           (λ n, literal_seed_text (name_property n) (node_data n))).
Qed.

End Loops.

(** ** [build_datatype_py] against the text it is expected to return *)

Lemma store_new_buffer (h : store) (out : string) :
  <[length h := "" +:+ out]> (h ++ [""]) = h ++ [out].
Proof.
  replace (length h) with (length h + 0) by lia.
  now rewrite insert_app_r.
Qed.

Lemma store_new_lookup (h : store) : (h ++ [""]) !! length h = Some "".
Proof. now rewrite lookup_app_r, Nat.sub_diag by lia. Qed.

Lemma runs_fresh {A} (m : M A) (h : store) out res :
  runs (length h) m out res → m (h ++ [""]) = (res out, h ++ [out]).
Proof.
  intros Hm. rewrite (Hm _ "" (store_new_lookup h)).
  now rewrite store_new_buffer.
Qed.

Ltac step_write := eapply runs_bind; [apply pure_runs_write |].

(** Enter the body of [build_datatype_py] on a compound node: the buffer is
    the next free index of the store. *)
Ltac enter_buffer Hc :=
  unfold build_datatype_py; rewrite Hc; simpl negb; cbv iota zeta;
  unfold bind at 1, StringIO at 1; cbv beta iota.

Section Build.

Variable textwrap_wrap : string → nat → string → string → list string.

Lemma build_datatype_py_not_compound (node : PlotlyNode) (h : store) :
  is_compound node = false →
  build_datatype_py textwrap_wrap node h = (Raise AssertionError, h).
Proof. intros Hc. unfold build_datatype_py. now rewrite Hc. Qed.

Lemma build_datatype_py_ok (node : PlotlyNode) (h : store) types :
  is_compound node = true →
  prop_types (name_undercase node) (child_datatypes node) = Ok types →
  last types ≠ None ∨ literal_nodes node = [] →
  build_datatype_py textwrap_wrap node h
  = (Ok (class_source textwrap_wrap node types),
     h ++ [class_source textwrap_wrap node types]).
Proof.
  intros Hc Hts Hlit. enter_buffer Hc.
  apply (runs_fresh _ h (class_source textwrap_wrap node types) Ok).
  pose proof (write_properties_runs textwrap_wrap (length h)
                (name_undercase node) _ None _ Hts) as Hwp.
  unfold class_source, source_head, source_middle, source_tail, imports_text.
  destruct (child_compound_datatypes node) as [|c cs];
    (destruct (last types) as [t|] eqn:Hl;
     [| destruct Hlit as [Hlit|Hlit]; [congruence | rewrite Hlit in *]]);
    (eapply runs_out_eq;
     [ do 4 step_write;
       (eapply runs_bind; [first [apply pure_runs_ret | apply pure_runs_write] |]);
       step_write;
       (eapply runs_bind; [exact Hwp |]);
       (eapply runs_bind;
        [first [apply write_literals_runs | apply pure_runs_ret] |]);
       do 4 step_write;
       (eapply runs_bind; [apply add_constructor_params_runs |]);
       (eapply runs_bind; [apply add_docstring_runs, Hc |]);
       step_write;
       (eapply runs_bind;
        [apply (pure_runs_for_each _
                  (λ n, validator_text (name_property n) (name_undercase node)
                          (name_validator_class n))) |]);
       step_write;
       (eapply runs_bind;
        [apply (pure_runs_for_each _ (λ n, populate_text (name_property n))) |]);
       eapply runs_then_getvalue, write_literal_seeds_runs
     | rewrite ?str_app_assoc; reflexivity ]).
Qed.

Lemma build_datatype_py_type_error (node : PlotlyNode) (h : store) e :
  is_compound node = true →
  prop_types (name_undercase node) (child_datatypes node) = Raise e →
  ∃ out, build_datatype_py textwrap_wrap node h = (Raise e, h ++ [out]).
Proof.
  intros Hc Hts.
  destruct (write_properties_raises textwrap_wrap (length h)
              (name_undercase node) _ None e Hts) as [out Hwp].
  eexists. enter_buffer Hc.
  apply (runs_fresh _ h _ (λ _, Raise e)).
  do 4 step_write.
  eapply (runs_bind _ _ _ tt
            (match child_compound_datatypes node with
             | [] => ""
             | _ :: _ => import_graph_objs_text (parent_dotpath_str node)
                           (name_undercase node)
             end)).
  { destruct (child_compound_datatypes node);
      [apply pure_runs_ret | apply pure_runs_write]. }
  step_write.
  apply runs_bind_raise, Hwp.
Qed.

Lemma build_datatype_py_unbound (node : PlotlyNode) (h : store) :
  is_compound node = true →
  child_datatypes node = [] →
  literal_nodes node ≠ [] →
  build_datatype_py textwrap_wrap node h
  = (Raise (UnboundLocalError "prop_type"), h ++ [source_head node]).
Proof.
  intros Hc Hkids Hlit. enter_buffer Hc. rewrite Hkids.
  apply (runs_fresh _ h _ (λ _, Raise (UnboundLocalError "prop_type"))).
  unfold source_head, imports_text, child_compound_datatypes.
  rewrite Hkids. simpl filter.
  eapply runs_out_eq.
  - do 4 step_write.
    eapply runs_bind; [apply pure_runs_ret |].
    step_write.
    eapply runs_bind; [apply pure_runs_ret |].
    apply runs_bind_raise, write_literals_unbound, Hlit.
  - rewrite ?str_app_assoc, ?str_app_nil_r. reflexivity.
Qed.

(** The result of [build_datatype_py] is [datatype_result] of the node,
    on every store. *)
Lemma build_datatype_py_result (node : PlotlyNode) (h : store) :
  (build_datatype_py textwrap_wrap node h).1
  = datatype_result textwrap_wrap node.
Proof.
  unfold datatype_result.
  destruct (is_compound node) eqn:Hc; simpl negb; cbv iota.
  2: { now rewrite build_datatype_py_not_compound. }
  destruct (prop_types (name_undercase node) (child_datatypes node))
    as [types|e] eqn:Hts.
  2: { destruct (build_datatype_py_type_error node h e Hc Hts) as [out ->].
       reflexivity. }
  destruct (last types) as [t|] eqn:Hl.
  { rewrite (build_datatype_py_ok node h types Hc Hts); [reflexivity |].
    left. congruence. }
  destruct (literal_nodes node) as [|l lits] eqn:Hlit.
  { rewrite (build_datatype_py_ok node h types Hc Hts); [reflexivity |].
    now right. }
  apply last_None in Hl. subst types.
  apply prop_types_length in Hts.
  destruct (child_datatypes node) eqn:Hkids; [|discriminate].
  rewrite build_datatype_py_unbound; [reflexivity | assumption.. |].
  rewrite Hlit. discriminate.
Qed.

End Build.

(** ** The type mapper *)

Lemma mem_elem_of (x : string) (ts : list string) :
  PyStr.mem x ts = true ↔ x ∈ ts.
Proof.
  unfold PyStr.mem. rewrite existsb_exists. split.
  - intros (y & Hy & Heq). apply String.eqb_eq in Heq. subst.
    now apply list_elem_of_In.
  - intros Hx. exists x. split; [now apply list_elem_of_In |].
    apply String.eqb_refl.
Qed.

Lemma get_typing_type_base (plotly_type pytype : string) :
  get_typing_type plotly_type false = Ok pytype → pytype ∈ base_pytypes.
Proof.
  unfold get_typing_type, base_pytypes.
  repeat match goal with
         | |- context [if ?c then _ else _] => destruct c
         end; intros H; inversion H; subst; set_solver.
Qed.

Lemma get_typing_type_union (plotly_type pytype : string) :
  get_typing_type plotly_type true = Ok pytype →
  ∃ base, base ∈ base_pytypes ∧
          pytype = "Union[" +:+ base +:+ ", List[" +:+ base +:+ "]]".
Proof.
  unfold get_typing_type, base_pytypes.
  repeat match goal with
         | |- context [if ?c then _ else _] => destruct c
         end; intros H; inversion H; subst; eexists; (split; [|reflexivity]);
    set_solver.
Qed.

(** C1 -- type-mapping totality.  Every [valType] tag [get_typing_type] knows
    maps to a non-empty Python type expression, with or without [array_ok];
    every other tag makes it raise the unknown-type error (a [ValueError]
    naming the tag) and return nothing. *)
Theorem get_typing_type_total :
  (∀ tag array_ok, tag ∈ plotly_types →
     ∃ pytype, get_typing_type tag array_ok = Ok pytype ∧ pytype ≠ "")
  ∧ (∀ tag array_ok, tag ∉ plotly_types →
       get_typing_type tag array_ok
       = Raise (ValueError ("Unknown plotly type: " +:+ tag))).
Proof.
  split.
  - intros tag array_ok Hin. unfold plotly_types in Hin. simpl in Hin.
    repeat (apply elem_of_cons in Hin as [-> | Hin];
            [destruct array_ok; eexists; (split; [reflexivity | discriminate]) |]).
    now apply elem_of_nil in Hin.
  - intros tag array_ok Hout. unfold get_typing_type.
    assert (Hmem : ∀ ts, ts ⊆ plotly_types → PyStr.mem tag ts = false).
    { intros ts Hsub. destruct (PyStr.mem tag ts) eqn:E; [|reflexivity].
      apply mem_elem_of in E. exfalso. apply Hout, Hsub, E. }
    rewrite (Hmem list_types), (Hmem str_types), (Hmem any_types),
      (Hmem number_types)
      by (intros x Hx; unfold plotly_types; rewrite !elem_of_app; auto 10).
    assert (Heqb : ∀ t, t ∈ plotly_types → String.eqb tag t = false).
    { intros t Ht. destruct (String.eqb tag t) eqn:E; [|reflexivity].
      apply String.eqb_eq in E. subst. contradiction. }
    rewrite (Heqb "integer"), (Heqb "boolean")
      by (unfold plotly_types; rewrite !elem_of_app, !elem_of_cons; auto 10).
    reflexivity.
Qed.

Lemma get_typing_type_total_witness :
  (∃ pytype, get_typing_type "integer" false = Ok pytype ∧ pytype ≠ "")
  ∧ get_typing_type "matrix" false
    = Raise (ValueError "Unknown plotly type: matrix").
Proof.
  split.
  - apply (proj1 get_typing_type_total "integer" false).
    unfold plotly_types. set_solver.
  - apply (proj2 get_typing_type_total "matrix" false).
    unfold plotly_types. simpl. intros Hin.
    repeat (apply elem_of_cons in Hin as [Hin | Hin]; [discriminate Hin |]).
    now apply elem_of_nil in Hin.
Defined.

(** ** The emitter's contract *)

Section Contract.

Variable textwrap_wrap : string → nat → string → string → list string.

(** C4 -- the compound precondition.  On a node that is not compound
    [build_datatype_py] fails its assertion before it creates a buffer: it
    raises, returns no text and leaves the store as it was.  On a compound
    node the assertion passes: whatever the call ends with, it is not the
    assertion failure. *)
Theorem build_datatype_py_requires_compound (node : PlotlyNode) (h : store) :
  (is_compound node = false →
   build_datatype_py textwrap_wrap node h = (Raise AssertionError, h))
  ∧ (is_compound node = true →
     (build_datatype_py textwrap_wrap node h).1 ≠ Raise AssertionError).
Proof.
  split; [apply build_datatype_py_not_compound |].
  intros Hc. rewrite build_datatype_py_result. unfold datatype_result.
  rewrite Hc. simpl negb. cbv iota.
  destruct (prop_types (name_undercase node) (child_datatypes node))
    as [types|e] eqn:Hts.
  - destruct (last types), (literal_nodes node); discriminate.
  - apply prop_types_error in Hts as [msg ->]. discriminate.
Qed.

(** C5 -- determinism.  The result of [build_datatype_py] is a function of
    the node: it is the same on any two stores, and in particular a second
    call, made on the store the first call left behind, returns the very
    same text (or raises the very same exception). *)
Theorem build_datatype_py_deterministic (node : PlotlyNode) (h h' : store) :
  (build_datatype_py textwrap_wrap node h).1
  = (build_datatype_py textwrap_wrap node h').1
  ∧ (build_datatype_py textwrap_wrap node
       (build_datatype_py textwrap_wrap node h).2).1
    = (build_datatype_py textwrap_wrap node h).1.
Proof. now rewrite !build_datatype_py_result. Qed.

(** C10 -- scalar annotation of leaf properties.  For a child that is
    neither an array element nor compound, the annotation is
    [get_typing_type] of its [datatype] with [array_ok] false: one of the
    base Python types, never a [Union[..., List[...]]] expression, and it is
    the annotation the accessor is written with. *)
Theorem leaf_annotation_is_scalar (b : StringIO_ref) (undercase : string)
    (subtype_node : PlotlyNode) :
  is_array_element subtype_node = false →
  is_compound subtype_node = false →
  prop_type_of undercase subtype_node
  = get_typing_type (datatype subtype_node) false
  ∧ ∀ prop_type,
      prop_type_of undercase subtype_node = Ok prop_type →
      prop_type ∈ base_pytypes
      ∧ (∀ tag, get_typing_type tag true ≠ Ok prop_type)
      ∧ pure_runs b (write_property textwrap_wrap b undercase subtype_node)
          (getter_text (name_property subtype_node) prop_type
             (property_docstring textwrap_wrap subtype_node)
           +:+ setter_text (name_property subtype_node))
          (Ok prop_type).
Proof.
  intros Harr Hcomp.
  assert (Heq : prop_type_of undercase subtype_node
                = get_typing_type (datatype subtype_node) false).
  { unfold prop_type_of. now rewrite Harr, Hcomp. }
  split; [exact Heq |].
  intros prop_type Ht. split; [| split].
  - rewrite Heq in Ht. eapply get_typing_type_base, Ht.
  - intros tag Hunion. rewrite Heq in Ht.
    apply get_typing_type_base in Ht.
    apply get_typing_type_union in Hunion as (base & Hbase & ->).
    unfold base_pytypes in *.
    repeat (apply elem_of_cons in Hbase as [-> | Hbase]);
      try (now apply elem_of_nil in Hbase);
      repeat (apply elem_of_cons in Ht as [Ht | Ht]; [discriminate Ht |]);
      now apply elem_of_nil in Ht.
  - apply write_property_runs, Ht.
Qed.

End Contract.

Lemma build_datatype_py_requires_compound_witness :
  build_datatype_py one_line_wrap Samples.color [] = (Raise AssertionError, [])
  ∧ (build_datatype_py one_line_wrap Samples.marker []).1 ≠ Raise AssertionError.
Proof.
  split.
  - apply (build_datatype_py_requires_compound one_line_wrap Samples.color []).
    reflexivity.
  - apply (build_datatype_py_requires_compound one_line_wrap Samples.marker []).
    reflexivity.
Defined.

Lemma leaf_annotation_is_scalar_witness :
  prop_type_of "marker" Samples.size = get_typing_type "number" false.
Proof.
  apply (leaf_annotation_is_scalar one_line_wrap 0 "marker" Samples.size);
    reflexivity.
Defined.

(** ** [split], [join] and [strip] *)

Lemma split_nonempty (sep : ascii) (s : string) : PyStr.split sep s ≠ [].
Proof.
  destruct s as [|c s]; simpl; [discriminate |].
  destruct (Ascii.eqb c sep); [discriminate |].
  destruct (PyStr.split sep s); discriminate.
Qed.

Lemma split_pieces_no_sep (sep : ascii) (s : string) :
  Forall (λ piece, PyStr.contains sep piece = false) (PyStr.split sep s).
Proof.
  induction s as [|c s IH]; simpl.
  - repeat constructor.
  - destruct (Ascii.eqb c sep) eqn:Hc.
    + constructor; [reflexivity | exact IH].
    + destruct (PyStr.split sep s) as [|piece pieces].
      * repeat constructor. simpl. now rewrite Hc.
      * inversion IH; subst. constructor; [|assumption].
        simpl. now rewrite Hc.
Qed.

(** Splitting after a separator-free prefix: the prefix joins the first
    piece. *)
Lemma split_app_no_sep (sep : ascii) (a s : string) :
  PyStr.contains sep a = false →
  PyStr.split sep (a +:+ s)
  = match PyStr.split sep s with
    | [] => [a]
    | piece :: pieces => (a +:+ piece) :: pieces
    end.
Proof.
  induction a as [|c a IH]; intros Ha.
  - change ("" +:+ s) with s.
    destruct (PyStr.split sep s) eqn:E; [|reflexivity].
    now apply split_nonempty in E.
  - simpl in Ha. apply orb_false_iff in Ha as [Hc Ha].
    rewrite str_app_cons. simpl. rewrite Hc, (IH Ha).
    destruct (PyStr.split sep s); reflexivity.
Qed.

Lemma split_no_sep (sep : ascii) (a : string) :
  PyStr.contains sep a = false → PyStr.split sep a = [a].
Proof.
  intros Ha. rewrite <- (str_app_nil_r a) at 1.
  rewrite split_app_no_sep by exact Ha. simpl. now rewrite str_app_nil_r.
Qed.

Lemma spaces_no_newline (n : nat) :
  PyStr.contains nl_char (PyStr.spaces n) = false.
Proof. induction n as [|n IH]; [reflexivity | exact IH]. Qed.

(** Splitting what [join] built on newline-plus-indent gives the first
    piece back as it was and every later piece behind the indent. *)
Lemma split_join_indent (n : nat) (pieces : list string) : ∀ first,
  Forall (λ piece, PyStr.contains nl_char piece = false) (first :: pieces) →
  PyStr.split nl_char (PyStr.join (nl +:+ PyStr.spaces n) (first :: pieces))
  = first :: map (λ piece, PyStr.spaces n +:+ piece) pieces.
Proof.
  induction pieces as [|piece pieces IH]; intros first Hall.
  - simpl. apply split_no_sep. now inversion Hall.
  - inversion Hall as [|? ? Hfirst Hrest]; subst.
    change (PyStr.join (nl +:+ PyStr.spaces n) (first :: piece :: pieces))
      with (first +:+ (nl +:+ PyStr.spaces n)
                  +:+ PyStr.join (nl +:+ PyStr.spaces n) (piece :: pieces)).
    rewrite (split_app_no_sep _ _ _ Hfirst).
    unfold nl at 1. rewrite !str_app_cons.
    change ("" +:+ PyStr.spaces n) with (PyStr.spaces n).
    change (PyStr.split nl_char
              (String nl_char
                 (PyStr.spaces n +:+
                    PyStr.join (nl +:+ PyStr.spaces n) (piece :: pieces))))
      with ("" :: PyStr.split nl_char
                    (PyStr.spaces n +:+
                       PyStr.join (nl +:+ PyStr.spaces n) (piece :: pieces))).
    cbv iota. rewrite str_app_nil_r.
    rewrite (split_app_no_sep _ _ _ (spaces_no_newline n)).
    rewrite (IH piece Hrest). reflexivity.
Qed.

Lemma rstrip_head (c : ascii) (s : string) :
  PyStr.isspace c = false → ∃ s', PyStr.rstrip (String c s) = String c s'.
Proof.
  intros Hc. simpl. destruct (PyStr.rstrip s).
  - rewrite Hc. now eexists.
  - now eexists.
Qed.

(** A stripped string is empty or starts with a character that is not
    white space. *)
Lemma strip_head (s : string) :
  PyStr.strip s = ""
  ∨ ∃ c s', PyStr.strip s = String c s' ∧ PyStr.isspace c = false.
Proof.
  unfold PyStr.strip. induction s as [|c s IH]; [now left |].
  simpl. destruct (PyStr.isspace c) eqn:Hc; [exact IH |].
  right. destruct (rstrip_head c s Hc) as [s' Hs']. now exists c, s'.
Qed.

Lemma split_first_of_stripped (s : string) :
  ∃ first rest,
    PyStr.split nl_char (PyStr.strip s) = first :: rest
    ∧ PyStr.lstrip first = first.
Proof.
  destruct (strip_head s) as [-> | (c & s' & -> & Hc)].
  - now exists "", [].
  - assert (Hnl : Ascii.eqb c nl_char = false).
    { destruct (Ascii.eqb c nl_char) eqn:E; [|reflexivity].
      apply Ascii.eqb_eq in E. subst. discriminate. }
    simpl. rewrite Hnl. destruct (PyStr.split nl_char s') as [|piece pieces];
      eexists _, _; (split; [reflexivity |]); simpl; now rewrite Hc.
Qed.

(** ** [reindent_validator_description] *)

(** C6, as the code has it -- the returned text starts with the first line
    of the stripped description, which has no leading white space; every
    later line is the corresponding line of the stripped description kept
    as it is, baseline indent included, behind exactly [extra_indent]
    additional spaces. *)
Theorem reindent_validator_description_lines
    (validator : Validator.t) (extra_indent : nat) :
  ∃ first rest,
    PyStr.split nl_char (PyStr.strip (Validator.description validator))
    = first :: rest
    ∧ PyStr.lstrip first = first
    ∧ PyStr.split nl_char
        (reindent_validator_description validator extra_indent)
      = first :: map (λ line, PyStr.spaces extra_indent +:+ line) rest.
Proof.
  destruct (split_first_of_stripped (Validator.description validator))
    as (first & rest & Hsplit & Hfirst).
  exists first, rest. repeat split; [exact Hsplit | exact Hfirst |].
  unfold reindent_validator_description. rewrite Hsplit.
  apply split_join_indent. rewrite <- Hsplit. apply split_pieces_no_sep.
Qed.

(** C6, as the specification words it, fails: on a two-line description
    with the four-space baseline the second line comes back behind eight
    spaces, not four. *)
Lemma reindent_validator_description_counterexample :
  let validator :=
    {| Validator.description := "    a" +:+ nl +:+ "    b" |} in
  reindent_validator_description validator 4 = "a" +:+ nl +:+ "        b"
  ∧ spec_reindent (Validator.description validator) 4
    = "a" +:+ nl +:+ "    b"
  ∧ reindent_validator_description validator 4
    ≠ spec_reindent (Validator.description validator) 4.
Proof. repeat split. discriminate. Qed.

(** ** Property docstrings *)

Section Docstrings.

Variable textwrap_wrap : string → nat → string → string → list string.

(** C7, as the code has it -- the docstring of a property is decided by
    whether the node has a validator and whether its wrapped description
    is blank: with a validator and a description, the description, a line
    of four spaces and the reindented validator description behind eight
    spaces; with a validator only, the indented validator description
    alone; without a validator, the wrapped description alone, which is
    empty when wrapping yields no line.  In each case the accessor and its
    docstring block are written and nothing is raised. *)
Theorem property_docstring_cases (subtype_node : PlotlyNode) :
  let property_description := property_description textwrap_wrap subtype_node in
  (∀ validator,
     get_validator_instance subtype_node = Some validator →
     PyStr.strip property_description ≠ "" →
     property_docstring textwrap_wrap subtype_node
     = property_description +:+ nl +:+ "    " +:+ nl +:+
       "        " +:+ reindent_validator_description validator 4)
  ∧ (∀ validator,
       get_validator_instance subtype_node = Some validator →
       PyStr.strip property_description = "" →
       property_docstring textwrap_wrap subtype_node
       = "        " +:+ reindent_validator_description validator 4)
  ∧ (get_validator_instance subtype_node = None →
     property_docstring textwrap_wrap subtype_node = property_description)
  ∧ (get_validator_instance subtype_node = None →
     wrap_description textwrap_wrap (description subtype_node) = [] →
     property_docstring textwrap_wrap subtype_node = "")
  ∧ (∀ b undercase prop_type,
       prop_type_of undercase subtype_node = Ok prop_type →
       pure_runs b (write_property textwrap_wrap b undercase subtype_node)
         (getter_text (name_property subtype_node) prop_type
            (property_docstring textwrap_wrap subtype_node)
          +:+ setter_text (name_property subtype_node))
         (Ok prop_type)).
Proof.
  cbv zeta. unfold property_docstring. repeat split.
  - intros validator -> Hpd.
    destruct (PyStr.strip (property_description textwrap_wrap subtype_node));
      [congruence | reflexivity].
  - intros validator -> Hpd. now rewrite Hpd.
  - now intros ->.
  - intros -> Hwrap. unfold property_description. now rewrite Hwrap.
  - intros b undercase prop_type Ht. now apply write_property_runs.
Qed.

End Docstrings.

Lemma property_docstring_cases_witness :
  property_docstring one_line_wrap Samples.size
  = "        big" +:+ nl +:+ "    " +:+ nl +:+ "        a number"
  ∧ property_docstring one_line_wrap Samples.color = "".
Proof.
  pose proof (property_docstring_cases one_line_wrap Samples.size)
    as (Hboth & _).
  pose proof (property_docstring_cases one_line_wrap Samples.color)
    as (_ & _ & _ & Hnone & _).
  split.
  - apply (Hboth {| Validator.description := "    a number" |});
      [reflexivity | discriminate].
  - apply Hnone; reflexivity.
Defined.

(** C7, as the specification words it, fails: a property with a
    description and a validator whose description is empty gets the
    description followed by the separator line and the indent, not the
    description alone. *)
Lemma property_docstring_counterexample :
  get_validator_instance Samples.quiet = Some {| Validator.description := "" |}
  ∧ reindent_validator_description {| Validator.description := "" |} 4 = ""
  ∧ property_description one_line_wrap Samples.quiet = "        big"
  ∧ property_docstring one_line_wrap Samples.quiet
    = "        big" +:+ nl +:+ "    " +:+ nl +:+ "        "
  ∧ property_docstring one_line_wrap Samples.quiet
    ≠ spec_property_docstring
        (property_description one_line_wrap Samples.quiet)
        (reindent_validator_description {| Validator.description := "" |} 4).
Proof. repeat split. discriminate. Qed.

(** ** Constructor parameters and emission order *)

Lemma render_spec_constructor_params (node : PlotlyNode) :
  str_concat (map render_param (spec_constructor_params node))
  +:+ params_close_text
  = params_text (child_datatypes node).
Proof.
  unfold spec_constructor_params, params_text, child_datatypes.
  rewrite map_app, str_concat_app, map_map, str_app_assoc.
  reflexivity.
Qed.

Lemma literal_not_child_datatype (node lit : PlotlyNode) :
  NoDup (map name_property (children node)) →
  lit ∈ children node →
  is_literal lit = true →
  name_property lit ∉ map name_property (child_datatypes node).
Proof.
  unfold child_datatypes.
  induction (children node) as [|c cs IH]; intros Hnodup Hin Hlit.
  - now apply elem_of_nil in Hin.
  - simpl in Hnodup. apply NoDup_cons in Hnodup as [Hc Hcs].
    assert (Hsub : ∀ x, x ∈ map name_property
                              (filter (λ n, is_literal n = false) cs) →
                        x ∈ map name_property cs).
    { intros x Hx. apply list_elem_of_fmap in Hx as (y & -> & Hy).
      apply list_elem_of_fmap. exists y. split; [reflexivity |].
      now apply list_elem_of_filter in Hy as [_ Hy]. }
    apply elem_of_cons in Hin as [-> | Hin].
    + rewrite filter_cons_False by congruence. intros Hx. now apply Hc, Hsub.
    + destruct (is_literal c) eqn:Hcl.
      * rewrite filter_cons_False by congruence. now apply IH.
      * rewrite filter_cons_True by assumption. simpl.
        intros Hx. apply elem_of_cons in Hx as [Heq | Hx].
        -- apply Hc. rewrite <- Heq. apply list_elem_of_fmap. now exists lit.
        -- now apply (IH Hcs Hin Hlit).
Qed.

Section Signature.

Variable textwrap_wrap : string → nat → string → string → list string.

(** A successful call returns the class source of the node for the
    annotations of its properties. *)
Lemma build_datatype_py_returns (node : PlotlyNode) (h : store) text :
  (build_datatype_py textwrap_wrap node h).1 = Ok text →
  ∃ types,
    prop_types (name_undercase node) (child_datatypes node) = Ok types
    ∧ text = class_source textwrap_wrap node types.
Proof.
  rewrite build_datatype_py_result. unfold datatype_result.
  destruct (negb (is_compound node)); [discriminate |].
  destruct (prop_types (name_undercase node) (child_datatypes node))
    as [types|e]; [|discriminate].
  intros H. exists types. split; [reflexivity |].
  destruct (last types), (literal_nodes node); now inversion H.
Qed.

(** C2 -- the constructor's parameter list.  What [add_constructor_params]
    writes for the node's properties is the rendering of the list the
    specification asks for -- one optional keyword parameter defaulting to
    [None] per non-literal child, in tree order, then [**kwargs] -- and the
    closing of the signature; a returned class source carries exactly that
    list after [def __init__(self].  No parameter in it is required, the
    catch-all comes last, and, child names being unique among siblings, no
    keyword parameter bears the property name of a literal child. *)
Theorem constructor_params_from_children
    (node : PlotlyNode) (b : StringIO_ref) (h : store) :
  pure_runs b (add_constructor_params b (child_datatypes node))
    (str_concat (map render_param (spec_constructor_params node))
     +:+ params_close_text)
    (Ok tt)
  ∧ (∀ text,
       (build_datatype_py textwrap_wrap node h).1 = Ok text →
       ∃ types,
         text
         = source_head node +:+
           properties_text textwrap_wrap (child_datatypes node) types +:+
           source_middle node (last types) +:+
           (str_concat (map render_param (spec_constructor_params node))
            +:+ params_close_text) +:+
           source_tail textwrap_wrap node)
  ∧ Forall (λ p, is_required p = false) (spec_constructor_params node)
  ∧ last (spec_constructor_params node) = Some (VarKeyword "kwargs")
  ∧ (NoDup (map name_property (children node)) →
     ∀ lit default,
       lit ∈ children node →
       is_literal lit = true →
       OptionalKeyword (name_property lit) default
       ∉ spec_constructor_params node).
Proof.
  repeat split.
  - rewrite render_spec_constructor_params. apply add_constructor_params_runs.
  - intros text Hok.
    apply build_datatype_py_returns in Hok as (types & _ & ->).
    exists types. now rewrite render_spec_constructor_params.
  - unfold spec_constructor_params. apply Forall_app. split.
    + apply Forall_fmap, Forall_forall. reflexivity.
    + repeat constructor.
  - unfold spec_constructor_params. apply last_snoc.
  - intros Hnodup lit default Hin Hlit Hparam.
    apply (literal_not_child_datatype node lit Hnodup Hin Hlit).
    unfold spec_constructor_params in Hparam.
    apply elem_of_app in Hparam as [Hparam | Hparam].
    + apply list_elem_of_fmap in Hparam as (c & Heq & Hc).
      inversion Heq as [[Hname Hdefault]]. rewrite Hname.
      apply list_elem_of_fmap. now exists c.
    + apply list_elem_of_singleton in Hparam. discriminate.
Qed.

(** C3 -- order preservation.  In a returned class source the accessor and
    mutator pairs are those of the node's non-literal children, one pair
    per child, in the order the children have in the tree; the constructor
    parameters that follow name the same children in the same order. *)
Theorem emission_follows_child_order (node : PlotlyNode) (h : store) text :
  (build_datatype_py textwrap_wrap node h).1 = Ok text →
  ∃ types,
    length types = length (filter (λ n, is_literal n = false) (children node))
    ∧ text
      = source_head node +:+
        str_concat
          (zip_with (accessor_pair_text textwrap_wrap)
             (filter (λ n, is_literal n = false) (children node)) types) +:+
        source_middle node (last types) +:+
        (str_concat
           (map (λ n, param_text (name_property n))
              (filter (λ n, is_literal n = false) (children node)))
         +:+ kwargs_text +:+ params_close_text) +:+
        source_tail textwrap_wrap node.
Proof.
  intros Hok. apply build_datatype_py_returns in Hok as (types & Hts & ->).
  exists types. split; [now apply prop_types_length in Hts | reflexivity].
Qed.

(** C8 -- a compound node without properties but with the literal [type]:
    the literal accessor reads [prop_type], which only the property loop
    assigns, so the call raises instead of returning a class. *)
Theorem zero_property_class_with_type_raises (node : PlotlyNode) (h : store) :
  is_compound node = true →
  (∀ child, child ∈ children node → is_literal child = true) →
  (∃ child, child ∈ children node ∧ plotly_name child = "type") →
  build_datatype_py textwrap_wrap node h
  = (Raise (UnboundLocalError "prop_type"), h ++ [source_head node]).
Proof.
  intros Hc Hall (child & Hin & Hname).
  apply build_datatype_py_unbound; [exact Hc | |].
  - unfold child_datatypes.
    destruct (filter (λ n, is_literal n = false) (children node))
      as [|c cs] eqn:Hf; [reflexivity |].
    assert (Hcf : c ∈ filter (λ n, is_literal n = false) (children node))
      by (rewrite Hf; apply list_elem_of_here).
    apply list_elem_of_filter in Hcf as [Hnl Hcin].
    rewrite (Hall c Hcin) in Hnl. discriminate.
  - intros Hnil.
    assert (Hlit : child ∈ literal_nodes node).
    { unfold literal_nodes, child_literals.
      apply list_elem_of_filter. split; [now rewrite Hname |].
      apply list_elem_of_filter. split; [now apply Hall | exact Hin]. }
    rewrite Hnil in Hlit. now apply elem_of_nil in Hlit.
Qed.

(** X14 -- the rest of the zero-property case: without the literal [type]
    the call returns a class whose property section is empty and whose
    parameter list is the catch-all alone. *)
Lemma zero_property_class_without_type (node : PlotlyNode) (h : store) :
  is_compound node = true →
  child_datatypes node = [] →
  literal_nodes node = [] →
  (build_datatype_py textwrap_wrap node h).1
  = Ok (source_head node +:+ source_middle node None +:+
        (kwargs_text +:+ params_close_text) +:+ source_tail textwrap_wrap node).
Proof.
  intros Hc Hkids Hlit.
  rewrite (build_datatype_py_ok textwrap_wrap node h []);
    [| exact Hc | now rewrite Hkids | now right].
  unfold class_source. now rewrite Hkids.
Qed.

End Signature.

Lemma constructor_params_from_children_witness :
  OptionalKeyword "type" "None" ∉ spec_constructor_params Samples.scatter.
Proof.
  pose proof (constructor_params_from_children one_line_wrap
                Samples.scatter 0 [""]) as (_ & _ & _ & _ & Hlit).
  apply (Hlit ltac:(compute_done) Samples.type_scatter "None");
    [apply list_elem_of_further, list_elem_of_here | reflexivity].
Defined.

Lemma emission_follows_child_order_witness :
  ∃ types,
    length types = 2
    ∧ (build_datatype_py one_line_wrap Samples.marker []).1
      = Ok (source_head Samples.marker +:+
            str_concat
              (zip_with (accessor_pair_text one_line_wrap)
                 [Samples.color; Samples.size] types) +:+
            source_middle Samples.marker (last types) +:+
            (str_concat
               (map (λ n, param_text (name_property n))
                  [Samples.color; Samples.size])
             +:+ kwargs_text +:+ params_close_text) +:+
            source_tail one_line_wrap Samples.marker).
Proof.
  destruct (emission_follows_child_order one_line_wrap Samples.marker [] _
              eq_refl) as (types & Hlen & Htext).
  exists types. split; [exact Hlen |].
  transitivity (Ok (A:=string) (class_source one_line_wrap Samples.marker
                      ["str"; "Number"])); [reflexivity |].
  f_equal. exact Htext.
Defined.

Lemma zero_property_class_with_type_raises_witness :
  build_datatype_py one_line_wrap Samples.only_type []
  = (Raise (UnboundLocalError "prop_type"), [source_head Samples.only_type]).
Proof.
  apply (zero_property_class_with_type_raises one_line_wrap
           Samples.only_type []).
  - reflexivity.
  - intros child Hin. apply list_elem_of_singleton in Hin. now subst.
  - exists Samples.type_scatter. split; [apply list_elem_of_here | reflexivity].
Defined.

(** C9 -- the scenario of the specification: a compound node whose one
    child is the literal [type] fixed to [scatter].  The call raises on the
    unbound [prop_type] after the class header; no accessor is emitted. *)
Theorem only_type_literal_raises
    (textwrap_wrap : string → nat → string → string → list string)
    (h : store) :
  build_datatype_py textwrap_wrap Samples.only_type h
  = (Raise (UnboundLocalError "prop_type"),
     h ++ [source_head Samples.only_type]).
Proof. now apply build_datatype_py_unbound. Qed.

(** With a property in front of it the literal is emitted: the accessor
    reads the private slot, the constructor seeds the slot with the fixed
    value, and [type] is not a parameter. *)
Lemma type_literal_after_property :
  (build_datatype_py one_line_wrap Samples.scatter []).1
  = Ok (class_source one_line_wrap Samples.scatter ["str"])
  ∧ literal_getters_text Samples.scatter "str"
    = literal_getter_text "type" "str" +:+ ""
  ∧ literal_seeds_text Samples.scatter
    = literals_header_text +:+ literal_seed_text "type" "scatter" +:+ ""
  ∧ params_text (child_datatypes Samples.scatter)
    = param_text "color" +:+ "" +:+ kwargs_text +:+ params_close_text.
Proof. repeat split. Qed.

(** * Further properties of the generator *)

(** ** [get_typing_type] with [array_ok] *)

Lemma get_typing_type_ok_iff (tag : string) (array_ok : bool) :
  (∃ pytype, get_typing_type tag array_ok = Ok pytype) ↔ tag ∈ plotly_types.
Proof.
  split.
  - intros [pytype H]. unfold get_typing_type in H. unfold plotly_types.
    rewrite !elem_of_app.
    destruct (PyStr.mem tag list_types) eqn:E1;
      [apply mem_elem_of in E1; auto |].
    destruct (PyStr.mem tag str_types) eqn:E2;
      [apply mem_elem_of in E2; auto |].
    destruct (PyStr.mem tag any_types) eqn:E3;
      [apply mem_elem_of in E3; auto |].
    destruct (PyStr.mem tag number_types) eqn:E4;
      [apply mem_elem_of in E4; auto 6 |].
    destruct (String.eqb tag "integer") eqn:E5.
    { apply String.eqb_eq in E5. subst. do 4 right. apply list_elem_of_here. }
    destruct (String.eqb tag "boolean") eqn:E6; [|discriminate].
    apply String.eqb_eq in E6. subst. do 4 right.
    apply list_elem_of_further, list_elem_of_here.
  - intros Hin. unfold plotly_types in Hin. simpl in Hin.
    repeat (apply elem_of_cons in Hin as [-> | Hin];
            [destruct array_ok; eexists; reflexivity |]).
    now apply elem_of_nil in Hin.
Qed.

(** X1, lines 39-42 -- with [array_ok] the mapper wraps the scalar type of the
    same tag into [Union[T, List[T]]], fails exactly when the scalar call
    fails, with the same error, and never returns the scalar type itself. *)
Theorem get_typing_type_array_ok (tag : string) :
  get_typing_type tag true
  = match get_typing_type tag false with
    | Ok pytype =>
        Ok ("Union[" +:+ pytype +:+ ", List[" +:+ pytype +:+ "]]")
    | Raise e => Raise e
    end
  ∧ (∀ pytype, get_typing_type tag false = Ok pytype →
               get_typing_type tag true ≠ Ok pytype).
Proof.
  assert (Hwrap : get_typing_type tag true
                  = match get_typing_type tag false with
                    | Ok pytype =>
                        Ok ("Union[" +:+ pytype +:+ ", List[" +:+ pytype +:+ "]]")
                    | Raise e => Raise e
                    end).
  { unfold get_typing_type.
    repeat match goal with
           | |- context [if ?c then _ else _] => destruct c
           end; reflexivity. }
  split; [exact Hwrap |].
  intros pytype Hscalar. rewrite Hwrap, Hscalar.
  apply get_typing_type_base in Hscalar. unfold base_pytypes in Hscalar.
  repeat (apply elem_of_cons in Hscalar as [-> | Hscalar]; [discriminate |]).
  now apply elem_of_nil in Hscalar.
Qed.

Lemma get_typing_type_array_ok_witness :
  get_typing_type "integer" true ≠ Ok "int".
Proof.
  apply (proj2 (get_typing_type_array_ok "integer") "int"). reflexivity.
Defined.

(** ** When [build_datatype_py] returns and when it raises *)

Lemma prop_type_of_ok_iff (undercase : string) (n : PlotlyNode) :
  (∃ t, prop_type_of undercase n = Ok t)
  ↔ is_array_element n = true ∨ is_compound n = true
    ∨ datatype n ∈ plotly_types.
Proof.
  unfold prop_type_of.
  destruct (is_array_element n); [split; [auto | eauto] |].
  destruct (is_compound n); [split; [auto | eauto] |].
  rewrite get_typing_type_ok_iff. split; [auto |].
  intros [H | [H | H]]; [discriminate.. | exact H].
Qed.

Lemma prop_types_ok_iff (undercase : string) (nodes : list PlotlyNode) :
  (∃ ts, prop_types undercase nodes = Ok ts)
  ↔ Forall (λ c, is_array_element c = true ∨ is_compound c = true
                 ∨ datatype c ∈ plotly_types) nodes.
Proof.
  induction nodes as [|n nodes IH]; simpl.
  - split; [constructor | eauto].
  - rewrite Forall_cons, <- IH, <- (prop_type_of_ok_iff undercase n).
    destruct (prop_type_of undercase n) as [t|e].
    + destruct (prop_types undercase nodes) as [ts|e].
      * split; eauto.
      * split; [intros [ts H]; discriminate |].
        intros [_ [ts H]]. discriminate.
    + split; [intros [ts H]; discriminate |].
      intros [[t H] _]. discriminate.
Qed.

Section Outcome.

Variable textwrap_wrap : string → nat → string → string → list string.

Lemma build_datatype_py_ok_iff (node : PlotlyNode) (h : store) :
  (∃ text, (build_datatype_py textwrap_wrap node h).1 = Ok text)
  ↔ is_compound node = true
    ∧ Forall (λ c, is_array_element c = true ∨ is_compound c = true
                   ∨ datatype c ∈ plotly_types) (child_datatypes node)
    ∧ (child_datatypes node ≠ [] ∨ literal_nodes node = []).
Proof.
  rewrite build_datatype_py_result,
    <- (prop_types_ok_iff (name_undercase node)).
  unfold datatype_result.
  destruct (is_compound node); simpl negb; cbv iota.
  2: { split; [intros [text H]; discriminate | intros [H _]; discriminate]. }
  destruct (prop_types (name_undercase node) (child_datatypes node))
    as [types|e] eqn:Hts.
  2: { split; [intros [text H]; discriminate |].
       intros (_ & [ts H] & _). congruence. }
  pose proof (prop_types_length _ _ _ Hts) as Hlen.
  destruct (last types) as [t|] eqn:Hl.
  - split; [| eauto]. intros _. repeat split; [eauto |].
    left. intros Hnil. rewrite Hnil in Hlen.
    destruct types; [discriminate | discriminate].
  - apply last_None in Hl. subst types.
    destruct (child_datatypes node); [|discriminate].
    destruct (literal_nodes node) as [|l lits].
    + split; [| eauto]. intros _. repeat split; eauto.
    + split; [intros [text H]; discriminate |].
      intros (_ & _ & [H | H]); [congruence | discriminate].
Qed.

(** X2, lines 63, 113 and 165 -- the exact condition under which the emitter
    returns a class source: the node is compound, every property that is
    neither an array element nor compound has a [valType] the type mapper
    knows, and the literal [type] does not come without a property. *)
Theorem build_datatype_py_succeeds_iff (node : PlotlyNode) (h : store) :
  (∃ text, (build_datatype_py textwrap_wrap node h).1 = Ok text)
  ↔ is_compound node = true
    ∧ Forall (λ c, is_array_element c = true ∨ is_compound c = true
                   ∨ datatype c ∈ plotly_types) (child_datatypes node)
    ∧ (child_datatypes node ≠ [] ∨ literal_nodes node = []).
Proof. apply build_datatype_py_ok_iff. Qed.

Lemma write_properties_stops (b : StringIO_ref) (undercase : string)
    (bad : PlotlyNode) (post : list PlotlyNode) (e : exn) (pre : list PlotlyNode) :
  ∀ prop_type types,
    prop_types undercase pre = Ok types →
    prop_type_of undercase bad = Raise e →
    pure_runs b
      (write_properties textwrap_wrap b undercase (pre ++ bad :: post) prop_type)
      (properties_text textwrap_wrap pre types) (Raise e).
Proof.
  induction pre as [|n pre IH]; simpl; intros prop_type types Hts Hbad.
  - inversion Hts; subst. apply runs_bind_raise, write_property_raises, Hbad.
  - destruct (prop_type_of undercase n) as [t|] eqn:Ht; [|discriminate].
    destruct (prop_types undercase pre) as [ts|] eqn:Hpre; [|discriminate].
    inversion Hts; subst.
    eapply runs_bind; [apply write_property_runs, Ht |].
    now apply IH.
Qed.

(** X3, lines 106-113 -- the first property whose [valType] the type mapper does
    not know stops the emission: the call raises the error naming that
    [valType], returns nothing, and its buffer holds the class head and the
    accessors of the properties before it, nothing of the ones after. *)
Theorem build_datatype_py_first_unknown_type
    (node : PlotlyNode) (h : store) pre bad post types :
  is_compound node = true →
  child_datatypes node = pre ++ bad :: post →
  prop_types (name_undercase node) pre = Ok types →
  is_array_element bad = false →
  is_compound bad = false →
  datatype bad ∉ plotly_types →
  build_datatype_py textwrap_wrap node h
  = (Raise (ValueError ("Unknown plotly type: " +:+ datatype bad)),
     h ++ [source_head node +:+ properties_text textwrap_wrap pre types]).
Proof.
  intros Hc Hkids Hpre Harr Hcomp Hunknown.
  assert (Hbad : prop_type_of (name_undercase node) bad
                 = Raise (ValueError ("Unknown plotly type: " +:+ datatype bad))).
  { destruct (prop_type_of (name_undercase node) bad) as [t|e] eqn:Ht.
    - exfalso. apply Hunknown.
      assert (Hok : ∃ t, prop_type_of (name_undercase node) bad = Ok t)
        by eauto.
      apply prop_type_of_ok_iff in Hok as [H | [H | H]]; congruence.
    - f_equal. eapply prop_type_of_error, Ht. }
  enter_buffer Hc. rewrite Hkids.
  apply (runs_fresh _ h _ (λ _, Raise _)).
  unfold source_head, imports_text.
  destruct (child_compound_datatypes node) as [|c cs];
    (eapply runs_out_eq;
     [ do 4 step_write;
       (eapply runs_bind; [first [apply pure_runs_ret | apply pure_runs_write] |]);
       step_write;
       apply runs_bind_raise;
       apply (write_properties_stops _ _ _ _ _ _ None types Hpre Hbad)
     | rewrite ?str_app_assoc; reflexivity ]).
Qed.

End Outcome.

Lemma build_datatype_py_succeeds_iff_witness :
  ¬ ∃ text, (build_datatype_py one_line_wrap Examples.broken []).1 = Ok text.
Proof.
  intros Hok.
  apply (build_datatype_py_succeeds_iff one_line_wrap Examples.broken [])
    in Hok as (_ & Hall & _).
  apply Forall_cons in Hall as [_ Hall].
  apply Forall_cons in Hall as [[H | [H | H]] _]; [discriminate H.. |].
  unfold plotly_types in H. simpl in H.
  repeat (apply elem_of_cons in H as [H | H]; [discriminate H |]).
  now apply elem_of_nil in H.
Defined.

Lemma build_datatype_py_first_unknown_type_witness :
  build_datatype_py one_line_wrap Examples.broken []
  = (Raise (ValueError "Unknown plotly type: matrix"),
     [source_head Examples.broken +:+
      properties_text one_line_wrap [Samples.color] ["str"]]).
Proof.
  apply (build_datatype_py_first_unknown_type one_line_wrap Examples.broken []
           [Samples.color] Examples.odd [Samples.size] ["str"]);
    try reflexivity.
  unfold plotly_types. simpl. intros H.
  repeat (apply elem_of_cons in H as [H | H]; [discriminate H |]).
  now apply elem_of_nil in H.
Defined.

(** ** What the emitted class depends on *)

Lemma prop_types_app (undercase : string) (xs ys : list PlotlyNode) ts :
  prop_types undercase (xs ++ ys) = Ok ts →
  ∃ txs tys, ts = txs ++ tys
             ∧ prop_types undercase xs = Ok txs
             ∧ prop_types undercase ys = Ok tys.
Proof.
  revert ts; induction xs as [|x xs IH]; simpl; intros ts H.
  - now exists [], ts.
  - destruct (prop_type_of undercase x) as [t|]; [|discriminate].
    destruct (prop_types undercase (xs ++ ys)) as [ts'|] eqn:E; [|discriminate].
    inversion H; subst.
    destruct (IH ts' eq_refl) as (txs & tys & -> & Hxs & Hys).
    exists (t :: txs), tys. now rewrite Hxs.
Qed.

Lemma child_datatypes_drop_literal (pre post : list PlotlyNode) lit :
  is_literal lit = true →
  filter (λ n, is_literal n = false) (pre ++ lit :: post)
  = filter (λ n, is_literal n = false) (pre ++ post).
Proof.
  intros Hlit. rewrite !filter_app. f_equal.
  apply filter_cons_False. congruence.
Qed.

Lemma literal_nodes_drop_other (pre post : list PlotlyNode) lit :
  plotly_name lit ≠ "type" →
  filter (λ n, PyStr.mem (plotly_name n) ["type"] = true)
    (filter (λ n, is_literal n = true) (pre ++ lit :: post))
  = filter (λ n, PyStr.mem (plotly_name n) ["type"] = true)
      (filter (λ n, is_literal n = true) (pre ++ post)).
Proof.
  intros Hname. rewrite !filter_app. f_equal.
  destruct (decide (is_literal lit = true)) as [Hlit | Hlit].
  - rewrite filter_cons_True by exact Hlit. apply filter_cons_False.
    rewrite mem_elem_of. intros Hin.
    apply list_elem_of_singleton in Hin. contradiction.
  - now rewrite filter_cons_False by exact Hlit.
Qed.

Section Dependence.

Variable textwrap_wrap : string → nat → string → string → list string.

(** X4, lines 69-70 and 216-217 -- of the literal children only the one named
    [type] reaches the emitted class: removing any other literal child,
    the node's other attributes staying as they are, changes neither the
    returned source nor the exception raised. *)
Theorem other_literals_are_ignored
    (node : PlotlyNode) (pre post : list PlotlyNode) (lit : PlotlyNode)
    (h : store) :
  children node = pre ++ lit :: post →
  is_literal lit = true →
  plotly_name lit ≠ "type" →
  (build_datatype_py textwrap_wrap node h).1
  = (build_datatype_py textwrap_wrap (with_children node (pre ++ post)) h).1.
Proof.
  intros Hkids Hlit Hname. rewrite !build_datatype_py_result.
  unfold datatype_result, class_source, source_head, source_middle,
    source_tail, imports_text, literal_getters_text, literal_seeds_text,
    docstring_text, docstring_description, is_compound,
    child_compound_datatypes, literal_nodes, child_literals, child_datatypes,
    with_children.
  cbn [plotly_name name_property name_undercase name_datatype_class
       name_base_datatype name_validator_class parent_path_str
       parent_dotpath_str kind is_array_element datatype description
       node_data get_validator_instance get_constructor_params_docstring
       children].
  now rewrite Hkids, (child_datatypes_drop_literal pre post lit Hlit),
    (literal_nodes_drop_other pre post lit Hname).
Qed.

(** X5, lines 196-227 -- the constructor body of a returned class: the call of
    the base initialiser with the node's property name, one validator
    registration and then one assignment per non-literal child, both in
    tree order, and the seeding of the literals named [type], under its
    header only when there is one. *)
Theorem constructor_body_follows_children
    (node : PlotlyNode) (h : store) (text : string) :
  (build_datatype_py textwrap_wrap node h).1 = Ok text →
  let kids := filter (λ n, is_literal n = false) (children node) in
  let types_of_kids := filter (λ n, plotly_name n = "type")
                         (filter (λ n, is_literal n = true) (children node)) in
  ∃ types,
    text
    = (source_head node +:+
       properties_text textwrap_wrap kids types +:+
       source_middle node (last types) +:+
       params_text kids +:+
       docstring_text textwrap_wrap node
         ("Construct a new " +:+ name_datatype_class node +:+ " object")) +:+
      super_init_text (name_property node) +:+
      str_concat (map (λ n, validator_text (name_property n)
                              (name_undercase node) (name_validator_class n))
                    kids) +:+
      populate_header_text +:+
      str_concat (map (λ n, populate_text (name_property n)) kids) +:+
      match types_of_kids with
      | [] => ""
      | _ :: _ =>
          literals_header_text +:+
          str_concat (map (λ n, literal_seed_text (name_property n)
                                  (node_data n)) types_of_kids)
      end.
Proof.
  intros Hok. cbv zeta.
  apply build_datatype_py_returns in Hok as (types & _ & ->).
  exists types. unfold class_source, source_tail, literal_seeds_text.
  assert (Hlits : literal_nodes node
                  = filter (λ n, plotly_name n = "type")
                      (filter (λ n, is_literal n = true) (children node))).
  { unfold literal_nodes, child_literals. apply list_filter_iff.
    intros n. rewrite mem_elem_of. apply list_elem_of_singleton. }
  rewrite Hlits. unfold child_datatypes.
  now rewrite !str_app_assoc.
Qed.

(** X6, lines 159-166 -- the accessor of the literal [type] is annotated with
    whatever the property loop left in [prop_type]: the annotation of the
    last non-literal child. *)
Theorem literal_accessor_annotation
    (node : PlotlyNode) (h : store) (text : string)
    (kids : list PlotlyNode) (last_kid : PlotlyNode) :
  (build_datatype_py textwrap_wrap node h).1 = Ok text →
  child_datatypes node = kids ++ [last_kid] →
  ∃ types t,
    prop_type_of (name_undercase node) last_kid = Ok t
    ∧ text
      = source_head node +:+
        properties_text textwrap_wrap (child_datatypes node) (types ++ [t]) +:+
        (str_concat (map (λ n, literal_getter_text (name_property n) t)
                       (literal_nodes node)) +:+
         private_properties_text (parent_path_str node) +:+
         get_constructor_params_docstring node 8 +:+
         close_descriptions_text +:+
         init_open_text) +:+
        params_text (child_datatypes node) +:+
        source_tail textwrap_wrap node.
Proof.
  intros Hok Hkids.
  apply build_datatype_py_returns in Hok as (types & Hts & ->).
  rewrite Hkids in Hts.
  apply prop_types_app in Hts as (txs & tys & -> & _ & Hlast).
  simpl in Hlast.
  destruct (prop_type_of (name_undercase node) last_kid) as [t|] eqn:Ht;
    [|discriminate].
  inversion Hlast; subst.
  exists txs, t. split; [reflexivity |].
  unfold class_source, source_middle, literal_getters_text.
  now rewrite last_snoc.
Qed.

(** X7, lines 88-94 -- a returned class source imports the [graph_objs]
    package of the node exactly when one of the node's children is
    compound. *)
Theorem graph_objs_import_iff_compound_child
    (node : PlotlyNode) (h : store) (text : string) :
  (build_datatype_py textwrap_wrap node h).1 = Ok text →
  ∃ types,
    let rest :=
      class_header_text (name_datatype_class node) (name_base_datatype node) +:+
      properties_text textwrap_wrap (child_datatypes node) types +:+
      source_middle node (last types) +:+
      params_text (child_datatypes node) +:+
      source_tail textwrap_wrap node in
    ((∃ child, child ∈ children node ∧ is_compound child = true) →
     text = common_imports_text node +:+
            import_graph_objs_text (parent_dotpath_str node)
              (name_undercase node) +:+ rest)
    ∧ ((∀ child, child ∈ children node → is_compound child = false) →
       text = common_imports_text node +:+ rest).
Proof.
  intros Hok. apply build_datatype_py_returns in Hok as (types & _ & ->).
  exists types. cbv zeta.
  unfold class_source, source_head, imports_text, common_imports_text.
  split.
  - intros (child & Hin & Hcomp).
    destruct (child_compound_datatypes node) as [|c cs] eqn:Hcc.
    + exfalso.
      assert (Hc : child ∈ child_compound_datatypes node).
      { unfold child_compound_datatypes, child_datatypes.
        apply list_elem_of_filter. split; [exact Hcomp |].
        apply list_elem_of_filter. split; [| exact Hin].
        unfold is_compound, is_literal in *. now destruct (kind child). }
      rewrite Hcc in Hc. now apply elem_of_nil in Hc.
    + now rewrite !str_app_assoc.
  - intros Hnone.
    destruct (child_compound_datatypes node) as [|c cs] eqn:Hcc.
    + now rewrite !str_app_assoc.
    + exfalso.
      assert (Hc : c ∈ child_compound_datatypes node)
        by (rewrite Hcc; apply list_elem_of_here).
      unfold child_compound_datatypes, child_datatypes in Hc.
      apply list_elem_of_filter in Hc as [Hcomp Hc].
      apply list_elem_of_filter in Hc as [_ Hc].
      rewrite (Hnone c Hc) in Hcomp. discriminate.
Qed.

End Dependence.

Lemma other_literals_are_ignored_witness :
  (build_datatype_py one_line_wrap Examples.scatter_with_role []).1
  = (build_datatype_py one_line_wrap
       (with_children Examples.scatter_with_role
          [Samples.color; Samples.type_scatter]) []).1.
Proof.
  apply (other_literals_are_ignored one_line_wrap Examples.scatter_with_role
           [Samples.color] [Samples.type_scatter] Examples.role []);
    [reflexivity | reflexivity | discriminate].
Defined.

Lemma constructor_body_follows_children_witness :
  ∃ before,
    class_source one_line_wrap Samples.scatter ["str"]
    = before +:+
      super_init_text "scatter" +:+
      (validator_text "color" "scatter" "LeafValidator" +:+ "") +:+
      populate_header_text +:+
      (populate_text "color" +:+ "") +:+
      literals_header_text +:+ literal_seed_text "type" "scatter" +:+ "".
Proof.
  destruct (constructor_body_follows_children one_line_wrap Samples.scatter []
              (class_source one_line_wrap Samples.scatter ["str"]) eq_refl)
    as (types & Htext).
  eexists. exact Htext.
Defined.

Lemma literal_accessor_annotation_witness :
  ∃ t, prop_type_of "scatter" Samples.color = Ok t
       ∧ literal_getters_text Samples.scatter t
         = literal_getter_text "type" t +:+ "".
Proof.
  destruct (literal_accessor_annotation one_line_wrap Samples.scatter []
              (class_source one_line_wrap Samples.scatter ["str"])
              [] Samples.color eq_refl eq_refl)
    as (types & t & Ht & _).
  exists t. split; [exact Ht | reflexivity].
Defined.

Lemma graph_objs_import_iff_compound_child_witness :
  ∃ rest,
    class_source one_line_wrap Examples.marker_with_line ["str"; "d_marker.Line"]
    = common_imports_text Examples.marker_with_line +:+
      import_graph_objs_text "" "marker" +:+ rest.
Proof.
  destruct (graph_objs_import_iff_compound_child one_line_wrap
              Examples.marker_with_line []
              (class_source one_line_wrap Examples.marker_with_line
                 ["str"; "d_marker.Line"]) eq_refl)
    as (types & Hwith & _).
  eexists. apply Hwith. exists Examples.line.
  split; [apply list_elem_of_further, list_elem_of_here | reflexivity].
Defined.

(** ** More on [reindent_validator_description] *)

Lemma join_split (s : string) : PyStr.join nl (PyStr.split nl_char s) = s.
Proof.
  induction s as [|c s IH]; [reflexivity |].
  simpl. destruct (Ascii.eqb c nl_char) eqn:Hc.
  - apply Ascii.eqb_eq in Hc. subst c.
    destruct (PyStr.split nl_char s) as [|p ps] eqn:Hs;
      [now apply split_nonempty in Hs |].
    change (PyStr.join nl ("" :: p :: ps))
      with ("" +:+ nl +:+ PyStr.join nl (p :: ps)).
    now rewrite IH.
  - destruct (PyStr.split nl_char s) as [|p ps] eqn:Hs;
      [now apply split_nonempty in Hs |].
    destruct ps as [|q qs].
    + simpl in *. now rewrite IH.
    + change (PyStr.join nl (String c p :: q :: qs))
        with (String c p +:+ nl +:+ PyStr.join nl (q :: qs)).
      change (PyStr.join nl (p :: q :: qs))
        with (p +:+ nl +:+ PyStr.join nl (q :: qs)) in IH.
      now rewrite str_app_cons, IH.
Qed.

Lemma str_app_empty (a b : string) : a +:+ b = "" → a = "" ∧ b = "".
Proof.
  destruct a; [intros H; split; [reflexivity | exact H] | discriminate].
Qed.

Lemma str_length_app (a b : string) :
  String.length (a +:+ b) = String.length a + String.length b.
Proof.
  induction a as [|c a IH]; [reflexivity |].
  rewrite str_app_cons. simpl. now rewrite IH.
Qed.

Lemma spaces_length (n : nat) : String.length (PyStr.spaces n) = n.
Proof.
  unfold PyStr.spaces.
  induction n as [|n IH]; [reflexivity | simpl; now rewrite IH].
Qed.

Lemma join_cons_cons (sep p q : string) (qs : list string) :
  PyStr.join sep (p :: q :: qs) = p +:+ sep +:+ PyStr.join sep (q :: qs).
Proof. reflexivity. Qed.

Lemma join_empty (sep p : string) (ps : list string) :
  sep ≠ "" → PyStr.join sep (p :: ps) = "" → p = "" ∧ ps = [].
Proof.
  intros Hsep. destruct ps as [|q qs];
    [intros H; split; [exact H | reflexivity] |].
  rewrite join_cons_cons. intros H.
  apply str_app_empty in H as [_ H]. apply str_app_empty in H as [H _].
  contradiction.
Qed.

Lemma indent_sep_nonempty (n : nat) : nl +:+ PyStr.spaces n ≠ "".
Proof. discriminate. Qed.

(** X8, lines 255-256 -- with no extra indent the description comes back stripped and otherwise
    unchanged: splitting at the line breaks and joining again loses
    nothing. *)
Theorem reindent_validator_description_zero (validator : Validator.t) :
  reindent_validator_description validator 0
  = PyStr.strip (Validator.description validator).
Proof. unfold reindent_validator_description. apply join_split. Qed.

(** X9, lines 255-256 -- the returned text is empty exactly when the
    description is blank. *)
Theorem reindent_validator_description_empty_iff
    (validator : Validator.t) (extra_indent : nat) :
  reindent_validator_description validator extra_indent = ""
  ↔ PyStr.strip (Validator.description validator) = "".
Proof.
  unfold reindent_validator_description. split.
  - intros H.
    destruct (PyStr.split nl_char (PyStr.strip (Validator.description validator)))
      as [|p ps] eqn:Hs; [now apply split_nonempty in Hs |].
    apply (join_empty _ _ _ (indent_sep_nonempty extra_indent)) in H as [-> ->].
    now rewrite <- (join_split (PyStr.strip _)), Hs.
  - now intros ->.
Qed.

Lemma join_indent_length (n : nat) (ps : list string) : ∀ p,
  String.length (PyStr.join (nl +:+ PyStr.spaces n) (p :: ps))
  = String.length (PyStr.join nl (p :: ps)) + n * length ps.
Proof.
  induction ps as [|q qs IH]; intros p; [simpl; lia |].
  rewrite !join_cons_cons, !str_length_app, IH, spaces_length.
  simpl length. change (String.length nl) with 1. lia.
Qed.

(** X10, lines 255-256 -- the returned text is the stripped description
    grown by exactly [extra_indent] characters for each of its line
    breaks. *)
Theorem reindent_validator_description_length
    (validator : Validator.t) (extra_indent : nat) :
  String.length (reindent_validator_description validator extra_indent)
  = String.length (PyStr.strip (Validator.description validator))
    + extra_indent
      * (length (PyStr.split nl_char
                   (PyStr.strip (Validator.description validator))) - 1).
Proof.
  unfold reindent_validator_description.
  rewrite <- (join_split (PyStr.strip _)) at 2.
  destruct (PyStr.split nl_char (PyStr.strip (Validator.description validator)))
    as [|p ps] eqn:Hs; [now apply split_nonempty in Hs |].
  rewrite join_indent_length. simpl length. f_equal. f_equal. lia.
Qed.

Lemma rstrip_idempotent (s : string) :
  PyStr.rstrip (PyStr.rstrip s) = PyStr.rstrip s.
Proof.
  induction s as [|c s IH]; [reflexivity |].
  simpl. destruct (PyStr.rstrip s) as [|c' r] eqn:Hr.
  - destruct (PyStr.isspace c) eqn:Hc; [reflexivity |].
    simpl. now rewrite Hc.
  - change (PyStr.rstrip (String c (String c' r)))
      with (match PyStr.rstrip (String c' r) with
            | EmptyString =>
                if PyStr.isspace c then EmptyString else String c EmptyString
            | r' => String c r'
            end).
    now rewrite IH.
Qed.

(** A string that ends in a non-empty part is kept by [rstrip] exactly when
    that part is. *)
Lemma rstrip_fixed_app (a b : string) :
  b ≠ "" →
  PyStr.rstrip (a +:+ b) = a +:+ b ↔ PyStr.rstrip b = b.
Proof.
  intros Hb. induction a as [|c a IH]; [reflexivity |].
  rewrite str_app_cons. simpl.
  assert (Hab : a +:+ b ≠ "").
  { intros H. apply str_app_empty in H as [_ H]. contradiction. }
  destruct (PyStr.rstrip (a +:+ b)) as [|c' r] eqn:Hr.
  - split.
    + intros H. exfalso. destruct (PyStr.isspace c); [discriminate |].
      inversion H as [Heq]. symmetry in Heq. contradiction.
    + intros H. apply IH in H. symmetry in H. contradiction.
  - rewrite <- IH. split; intros H; [now inversion H | now rewrite H].
Qed.

Lemma rstrip_join_indent (n : nat) (ps : list string) : ∀ p,
  PyStr.rstrip (PyStr.join nl (p :: ps)) = PyStr.join nl (p :: ps) →
  PyStr.rstrip (PyStr.join (nl +:+ PyStr.spaces n) (p :: ps))
  = PyStr.join (nl +:+ PyStr.spaces n) (p :: ps).
Proof.
  induction ps as [|q qs IH]; intros p; [trivial |].
  rewrite !join_cons_cons. intros H.
  assert (Hnl : nl ≠ "") by discriminate.
  assert (Htail : nl +:+ PyStr.join nl (q :: qs) ≠ "") by discriminate.
  apply (rstrip_fixed_app _ _ Htail) in H.
  assert (Hj : PyStr.join nl (q :: qs) ≠ "").
  { intros Hj. rewrite Hj in H. discriminate H. }
  apply (rstrip_fixed_app _ _ Hj) in H.
  assert (Hj' : PyStr.join (nl +:+ PyStr.spaces n) (q :: qs) ≠ "").
  { intros Hj'. apply Hj.
    apply (join_empty _ _ _ (indent_sep_nonempty n)) in Hj' as [-> ->].
    reflexivity. }
  rewrite <- str_app_assoc.
  apply (rstrip_fixed_app _ _ Hj'). now apply IH.
Qed.

(** X11, lines 255-256 -- the returned text has no white space at either
    end, whatever the description and the indent: it can be spliced after
    the caller's own indent and before the closing of a docstring as it
    is. *)
Theorem reindent_validator_description_stripped
    (validator : Validator.t) (extra_indent : nat) :
  PyStr.strip (reindent_validator_description validator extra_indent)
  = reindent_validator_description validator extra_indent.
Proof.
  unfold reindent_validator_description.
  set (s := PyStr.strip (Validator.description validator)).
  assert (Hr : PyStr.rstrip s = s) by apply rstrip_idempotent.
  assert (Hl : ∀ sep, PyStr.lstrip (PyStr.join sep (PyStr.split nl_char s))
                      = PyStr.join sep (PyStr.split nl_char s)).
  { intros sep. subst s.
    destruct (strip_head (Validator.description validator))
      as [-> | (c & s' & -> & Hc)]; [reflexivity |].
    assert (Hnl : Ascii.eqb c nl_char = false).
    { destruct (Ascii.eqb c nl_char) eqn:E; [|reflexivity].
      apply Ascii.eqb_eq in E. subst. discriminate. }
    simpl PyStr.split. rewrite Hnl.
    destruct (PyStr.split nl_char s') as [|p ps];
      [simpl; now rewrite Hc |].
    destruct ps as [|q qs]; [simpl; now rewrite Hc |].
    rewrite join_cons_cons, str_app_cons. simpl. now rewrite Hc. }
  unfold PyStr.strip at 1. rewrite Hl.
  destruct (PyStr.split nl_char s) as [|p ps] eqn:Hs;
    [now apply split_nonempty in Hs |].
  apply rstrip_join_indent. rewrite <- Hs, join_split. exact Hr.
Qed.

(** ** [add_docstring] and [write_datatype_py] *)

Section Callers.

Variable textwrap_wrap : string → nat → string → string → list string.

(** X12, lines 283-337 -- [add_docstring] refuses a node that is not compound
    before it writes anything; for a compound node it appends the header,
    the description block, the parameter descriptions and the Returns
    block to what the buffer holds.  The description block is left out
    exactly when the node's description is the empty string. *)
Theorem add_docstring_behaviour
    (b : StringIO_ref) (node : PlotlyNode) (header : string)
    (h : store) (text : string) :
  h !! b = Some text →
  (is_compound node = false →
   add_docstring textwrap_wrap b node header h = (Raise AssertionError, h))
  ∧ (is_compound node = true →
     add_docstring textwrap_wrap b node header h
     = (Ok tt,
        <[b := text +:+
               docstring_open_text header
                 (docstring_description textwrap_wrap node) +:+
               get_constructor_params_docstring node 8 +:+
               docstring_close_text (name_datatype_class node)]> h))
  ∧ (docstring_description textwrap_wrap node = "" ↔ description node = "").
Proof.
  intros Hb. repeat split.
  - intros Hc. unfold add_docstring. now rewrite Hc.
  - intros Hc. apply (add_docstring_runs textwrap_wrap b node header Hc h text Hb).
  - unfold docstring_description.
    destruct (description node) as [|c d]; [reflexivity |].
    simpl PyStr.truthy. cbv iota. intros H.
    apply str_app_empty in H as [_ H]. discriminate H.
  - intros H. unfold docstring_description. now rewrite H.
Qed.

Variable FS : Type.
Variable format_and_write_source_py : string → string → FS → result unit * FS.
Variable opath_join : list string → string.
Variable parent_path_parts : PlotlyNode → list string.


End Callers.

Lemma add_docstring_behaviour_witness :
  add_docstring one_line_wrap 0 Samples.color "header" ["class C:"]
  = (Raise AssertionError, ["class C:"]).
Proof.
  apply (add_docstring_behaviour one_line_wrap 0 Samples.color "header"
           ["class C:"] "class C:"); reflexivity.
Defined.


Lemma zero_property_class_without_type_witness :
  (build_datatype_py one_line_wrap Samples.empty_node ["kept"]).1
  = Ok (source_head Samples.empty_node +:+
        source_middle Samples.empty_node None +:+
        (kwargs_text +:+ params_close_text) +:+
        source_tail one_line_wrap Samples.empty_node).
Proof.
  apply (zero_property_class_without_type one_line_wrap Samples.empty_node
           ["kept"]); reflexivity.
Defined.
